(** * Image question answering service: model of [backend/app.py]

    The service is one HTTP endpoint.  It validates an uploaded image,
    runs an OCR engine on it, decides with a keyword heuristic whether the
    recognised text is a question and, if so, asks a chat-completion API
    for an answer.

    The Python code is embedded shallowly:
    - a [str] is the list of its Unicode code points;
    - a computation that may raise and that logs or calls a third-party
      service is a value of the monad [M]: the trace of events it emitted
      and how it ended: with a result, with an instance of [Exception],
      or with an exception that no [except Exception] clause catches;
    - the third-party services (OCR engine, image decoder, chat API,
      process environment) are the fields of a [World]. *)

From Stdlib Require Import List NArith Bool String Ascii QArith Lia.
Import ListNotations.

Set Implicit Arguments.
Close Scope Q_scope.

(** ** Python strings *)

Module PyStr.

Local Open Scope N_scope.

Definition codepoint := N.
Definition str := list codepoint.

(** A string literal of the source. *)
Definition lit (s : string) : str := map N_of_ascii (list_ascii_of_string s).

Definition newline : str := [10].

Fixpoint eqb (a b : str) : bool :=
  match a, b with
  | [], [] => true
  | x :: a', y :: b' => N.eqb x y && eqb a' b'
  | _, _ => false
  end.

(** [bool(s)] for a string: the empty string is falsy. *)
Definition truthy (s : str) : bool :=
  match s with [] => false | _ => true end.

(** [x in l] for a list of strings. *)
Definition list_contains (x : str) (l : list str) : bool := existsb (eqb x) l.

Fixpoint startswith (p s : str) : bool :=
  match p, s with
  | [], _ => true
  | x :: p', y :: s' => N.eqb x y && startswith p' s'
  | _ :: _, [] => false
  end.

(** [sub in s] for strings: substring search. *)
Fixpoint contains (sub s : str) : bool :=
  startswith sub s ||
  match s with
  | [] => false
  | _ :: s' => contains sub s'
  end.

(** [str.isspace] on one code point, as [str.split] uses it: the ASCII
    table for code points below 128, the Unicode White_Space and
    bidirectional-separator characters above. *)
Definition isspace (c : codepoint) : bool :=
  ((9 <=? c) && (c <=? 13)) || ((28 <=? c) && (c <=? 32))
  || (c =? 133) || (c =? 160) || (c =? 5760)
  || ((8192 <=? c) && (c <=? 8202))
  || (c =? 8232) || (c =? 8233) || (c =? 8239) || (c =? 8287)
  || (c =? 12288).

(** [str.split()] with no separator: runs of whitespace separate the
    tokens, leading and trailing whitespace is dropped.  [cur] is the
    token being read. *)
Fixpoint split_from (cur s : str) : list str :=
  match s with
  | [] => match cur with [] => [] | _ => [cur] end
  | c :: s' =>
      if isspace c
      then match cur with
           | [] => split_from [] s'
           | _ => cur :: split_from [] s'
           end
      else split_from (cur ++ [c]) s'
  end.

Definition split (s : str) : list str := split_from [] s.

(** [sep.join(l)]. *)
Fixpoint join (sep : str) (l : list str) : str :=
  match l with
  | [] => []
  | [x] => x
  | x :: l' => x ++ sep ++ join sep l'
  end.

(** The cut of [s] at the last occurrence of the character [sep]. *)
Fixpoint rcut (sep : codepoint) (s : str) : option (str * str) :=
  match s with
  | [] => None
  | c :: s' =>
      match rcut sep s' with
      | Some (a, b) => Some (c :: a, b)
      | None => if N.eqb c sep then Some ([], s') else None
      end
  end.

(** [s.rsplit(sep, 1)] for a one-character separator. *)
Definition rsplit1 (sep : codepoint) (s : str) : list str :=
  match rcut sep s with
  | Some (a, b) => [a; b]
  | None => [s]
  end.

Definition is_ascii (c : codepoint) : bool := c <? 128.

Definition ascii_lower (c : codepoint) : codepoint :=
  if (65 <=? c) && (c <=? 90) then c + 32 else c.

(** [str.lower()].  A string of ASCII characters is lowered character by
    character.  For any other string the result is given by the Unicode
    case tables of the interpreter, which are not part of this
    repository: [unicode_lower] stands for them. *)
Definition lower (unicode_lower : str -> str) (s : str) : str :=
  if forallb is_ascii s then map ascii_lower s else unicode_lower s.

End PyStr.

Abbreviation str := PyStr.str.
Abbreviation lit := PyStr.lit.

(** ** Exceptions, events and the monad of the handlers *)

(** An instance of [Exception]: its class name and [str(e)]. *)
Record exn := mk_exn { exc_class : str; exc_str : str }.

(** An exception that is not an instance of [Exception]: [SystemExit],
    [KeyboardInterrupt], [GeneratorExit] or another direct descendant of
    [BaseException]. *)
Record base_exn := mk_base_exn { base_class : str; base_str : str }.

(** A call returns, or raises an instance of [Exception]. *)
Inductive result (A : Type) : Type :=
| Ok (a : A)
| Raise (e : exn).
Arguments Ok {A} a.
Arguments Raise {A} e.

(** How a computation ends: as a [result] does, or with an exception that
    is not an [Exception]. *)
Inductive completion (A : Type) : Type :=
| Done (r : result A)
| Exit (b : base_exn).
Arguments Done {A} r.
Arguments Exit {A} b.

Coercion Done : result >-> completion.

(** A pair is read against the type expected of it, so that a [result]
    stands where a [completion] is expected. *)
Arguments pair {A B}%_type_scope & a b.

Inductive loglevel := INFO | ERROR | CRITICAL.

(** The request sent to the chat-completion API. *)
Record chat_request := mk_chat_request {
  chat_model : str;
  chat_messages : list (str * str);   (* role, content *)
  chat_max_tokens : N;
  chat_temperature : Q
}.

(** What a run does that can be observed from outside. *)
Inductive event :=
| Log (level : loglevel) (msg : str)
| CallReader (languages : list str)
| CallImageOpen
| CallNpArray
| CallReadtext
| CallChatCompletion (req : chat_request)
| CallMakedirs (path : str)
| CallRoute (rule : str) (methods : list str)
| CallRun (host : str) (port : N) (debug : bool).

Definition M (A : Type) : Type := (list event * completion A)%type.

Definition ret {A} (a : A) : M A := ([], Done (Ok a)).

Definition raise {A} (e : exn) : M A := ([], Done (Raise e)).

Definition bind {A B} (m : M A) (k : A -> M B) : M B :=
  match m with
  | (t, Done (Ok a)) => let (t', r) := k a in (t ++ t', r)
  | (t, Done (Raise e)) => (t, Done (Raise e))
  | (t, Exit b) => (t, Exit b)
  end.

(** [try: m  except Exception as e: h e].  The clause catches the
    instances of [Exception] and nothing else: an [Exit] goes through. *)
Definition try_except {A} (m : M A) (h : exn -> M A) : M A :=
  match m with
  | (t, Done (Ok a)) => (t, Done (Ok a))
  | (t, Done (Raise e)) => let (t', r) := h e in (t ++ t', r)
  | (t, Exit b) => (t, Exit b)
  end.

(** A call to a third-party service: the call is recorded, its outcome
    is the one the world gives. *)
Definition call {A} (ev : event) (r : completion A) : M A := ([ev], r).

Definition log (level : loglevel) (msg : str) : M unit :=
  ([Log level msg], Done (Ok tt)).

Definition trace {A} (m : M A) : list event := fst m.
Definition outcome {A} (m : M A) : completion A := snd m.

Declare Scope py_scope.
Delimit Scope py_scope with py.
Notation "x <- m ;; k" := (bind m (fun x => k))
  (at level 61, m at next level, right associativity) : py_scope.
Notation "m ;;; k" := (bind m (fun _ => k))
  (at level 61, right associativity) : py_scope.
Open Scope py_scope.

(** [l[i]] on a list. *)
Definition getitem {A} (l : list A) (i : nat) : M A :=
  match nth_error l i with
  | Some a => ret a
  | None => raise (mk_exn (lit "IndexError") (lit "list index out of range"))
  end.

(** ** The world outside the program *)

(** One triple of the OCR engine's output. *)
Record ocr_result := mk_ocr_result {
  ocr_bbox : list (N * N);
  ocr_text : str;
  ocr_confidence : Q
}.

(** [response['choices'][i]['message']['content']]. *)
Record chat_choice := mk_chat_choice { choice_content : str }.
Record chat_response := mk_chat_response { choices : list chat_choice }.

(** The calls of start-up ([easyocr.Reader], [os.makedirs]) are taken
    with their errors; the calls made while a request is served and the
    server loop may also end with an exception that is not an
    [Exception] (an interrupt, or [SystemExit] out of the server). *)
Record World := mk_World {
  Reader : Type;                       (* an [easyocr.Reader] *)
  PilImage : Type;                     (* a [PIL.Image] *)
  ndarray : Type;                      (* a [numpy.ndarray] *)
  unicode_lower : str -> str;
  getenv : str -> option str;
  easyocr_Reader : list str -> result Reader;
  readtext : Reader -> ndarray -> completion (list ocr_result);
  Image_open : list N -> completion PilImage;
  np_array : PilImage -> completion ndarray;
  ChatCompletion_create : chat_request -> completion chat_response;
  makedirs : str -> result unit;
  app_run : str -> N -> bool -> completion unit
}.

(** ** class QuestionOCRAnalyzer *)

Module QuestionOCRAnalyzer.
Section WithWorld.

Variable W : World.

(** The object: the OCR reader, and the API key the constructor stored
    in the [openai] module. *)
Record t := mk { reader : Reader W; api_key : str }.

Definition init (languages : list str) : M t :=
  try_except
    (r <- call (CallReader languages) (easyocr_Reader W languages) ;;
     match getenv W (lit "OPENAI_API_KEY") with
     | Some key =>
         if negb (PyStr.truthy key)
         then raise (mk_exn (lit "ValueError") (lit "OpenAI API key is required"))
         else ret (mk r key)
     | None => raise (mk_exn (lit "ValueError") (lit "OpenAI API key is required"))
     end)
    (fun e =>
       log ERROR (lit "Initialization failed: " ++ exc_str e) ;;;
       raise e).

Definition question_keywords : list str :=
  [lit "what"; lit "who"; lit "where"; lit "when"; lit "why"; lit "how";
   lit "which"].

(** The test of lines 70 to 73 on the text the OCR produced. *)
Definition is_likely_question (full_text : str) : bool :=
  let lower_text := PyStr.lower (unicode_lower W) full_text in
  existsb
    (fun keyword =>
       PyStr.list_contains keyword (firstn 3 (PyStr.split lower_text)))
    question_keywords
  || PyStr.contains (lit "?") full_text.

(** Line 75: the text itself when it looks like a question. *)
Definition question_heuristic (full_text : str) : str :=
  if is_likely_question full_text then full_text else lit "".

(** Line 60: the text of the triples, one per line. *)
Definition full_text_of (results : list ocr_result) : str :=
  PyStr.join PyStr.newline (map ocr_text results).

Definition extract_question (self : t) (image_array : ndarray W) : M str :=
  try_except
    (results <- call CallReadtext (readtext W (reader self) image_array) ;;
     let full_text := full_text_of results in
     ret (question_heuristic full_text))
    (fun e =>
       log ERROR (lit "Question extraction failed: " ++ exc_str e) ;;;
       ret (lit "")).

Definition system_prompt : str :=
  lit "You are an expert question-answering AI. Provide clear, concise, and accurate answers to the given question. If the question is unclear or cannot be answered, explain why.".

(** Lines 93 to 110: the arguments of [openai.ChatCompletion.create]. *)
Definition completion_request (question : str) : chat_request :=
  let messages := [(lit "system", system_prompt); (lit "user", question)] in
  mk_chat_request (lit "gpt-4o-mini") messages 300%N (7 # 10)%Q.

Definition answer_question (self : t) (question : str) : M str :=
  try_except
    (let req := completion_request question in
     response <- call (CallChatCompletion req) (ChatCompletion_create W req) ;;
     choice <- getitem (choices response) 0 ;;
     ret (choice_content choice))
    (fun e =>
       log ERROR (lit "Question answering failed: " ++ exc_str e) ;;;
       ret (lit "Sorry, I couldn't generate an answer. Error: " ++ exc_str e)).

End WithWorld.
End QuestionOCRAnalyzer.

(** ** class FlaskQuestionAnswerApp *)

(** An uploaded file part, and a request: what [request.files] evaluates
    to.  Flask parses the multipart body at the first access, so the
    access either gives the parts or ends as the parser does: it raises
    [RequestEntityTooLarge] when the body is larger than the
    application's [MAX_CONTENT_LENGTH] or has too many parts.  The parts
    form a multi-dictionary, the first one of a name is the one
    [files[name]] gives. *)
Record FileStorage := mk_FileStorage { filename : str; stream : list N }.
Record Request := mk_Request {
  files : completion (list (str * FileStorage))
}.

(** [request.files]. *)
Definition request_files (r : Request) : M (list (str * FileStorage)) :=
  ([], files r).

(** A JSON object of strings and the HTTP status sent with it. *)
Definition Response : Type := (list (str * str) * N)%type.

Definition jsonify (d : list (str * str)) : list (str * str) := d.

(** [name in parts] and [parts[name]] on the multi-dictionary. *)
Definition files_contains (name : str) (parts : list (str * FileStorage))
    : bool :=
  existsb (fun kv => PyStr.eqb name (fst kv)) parts.

Definition files_getitem (name : str) (parts : list (str * FileStorage))
    : M FileStorage :=
  match find (fun kv => PyStr.eqb name (fst kv)) parts with
  | Some kv => ret (snd kv)
  | None => raise (mk_exn (lit "BadRequestKeyError") name)
  end.

Module FlaskQuestionAnswerApp.
Section WithWorld.

Variable W : World.

Record t := mk {
  MAX_CONTENT_LENGTH : N;
  UPLOAD_FOLDER : str;
  question_analyzer : QuestionOCRAnalyzer.t W
}.

(** Lines 140 to 144: the handler is given to
    [app.route('/answer-question', methods=['POST'])].  What Flask makes
    of the registration (its own static rule, the methods it adds) is
    Flask's. *)
Definition register_routes : M unit :=
  call (CallRoute (lit "/answer-question") [lit "POST"]) (Ok tt).

Definition init : M t :=
  let max_content_length := (16 * 1024 * 1024)%N in
  let upload_folder :=
    match getenv W (lit "UPLOAD_FOLDER") with
    | Some v => v
    | None => lit "./uploads"
    end in
  call (CallMakedirs upload_folder) (makedirs W upload_folder) ;;;
  analyzer <- QuestionOCRAnalyzer.init W [lit "en"] ;;
  register_routes ;;;
  ret (mk max_content_length upload_folder analyzer).

Definition ALLOWED_EXTENSIONS : list str :=
  [lit "png"; lit "jpg"; lit "jpeg"; lit "gif"; lit "bmp"; lit "webp"].

Definition allowed_file (filename : str) : M bool :=
  if PyStr.contains (lit ".") filename
  then
    ext <- getitem (PyStr.rsplit1 46%N filename) 1 ;;
    ret (PyStr.list_contains (PyStr.lower (unicode_lower W) ext)
           ALLOWED_EXTENSIONS)
  else ret false.

Definition process_question_image (self : t) (request : Request) : M Response :=
  try_except
    (parts <- request_files request ;;
     if negb (files_contains (lit "image") parts)
     then ret (jsonify [(lit "error", lit "No image file provided")], 400%N)
     else
       image_file <- files_getitem (lit "image") parts ;;
       if PyStr.eqb (filename image_file) (lit "")
       then ret (jsonify [(lit "error", lit "No selected file")], 400%N)
       else
         ok <- allowed_file (filename image_file) ;;
         if negb ok
         then ret (jsonify [(lit "error", lit "Invalid file type")], 400%N)
         else
           image_data <- call CallImageOpen (Image_open W (stream image_file)) ;;
           image_array <- call CallNpArray (np_array W image_data) ;;
           extracted_question <-
             QuestionOCRAnalyzer.extract_question (question_analyzer self)
               image_array ;;
           if negb (PyStr.truthy extracted_question)
           then ret (jsonify [(lit "error",
                               lit "No clear question found in the image");
                              (lit "extracted_text", lit "")], 400%N)
           else
             answer <-
               QuestionOCRAnalyzer.answer_question (question_analyzer self)
                 extracted_question ;;
             ret (jsonify [(lit "extracted_question", extracted_question);
                           (lit "answer", answer)], 200%N))
    (fun e =>
       log ERROR (lit "Question image processing failed: " ++ exc_str e) ;;;
       ret (jsonify [(lit "error", lit "Internal server error")], 500%N)).

Definition run (self : t) (host : str) (port : N) (debug : bool) : M unit :=
  call (CallRun host port debug) (app_run W host port debug).

End WithWorld.
End FlaskQuestionAnswerApp.

(** ** main *)

Definition main (W : World) : M unit :=
  try_except
    (question_app <- FlaskQuestionAnswerApp.init W ;;
     log INFO (lit "Question Answering OCR Application initialized successfully") ;;;
     FlaskQuestionAnswerApp.run question_app (lit "0.0.0.0") 5000%N true)
    (fun e => log CRITICAL (lit "Application startup failed: " ++ exc_str e)).

(** * The specification's notions

    What the specification says in words, written independently of the
    code above. *)

Module Spec.

Local Open Scope N_scope.

(** A run of whitespace. *)
Definition blank (ws : str) : Prop :=
  Forall (fun c => PyStr.isspace c = true) ws.

(** A token: a non-empty run of characters that are not whitespace. *)
Definition word (t : str) : Prop :=
  t <> [] /\ Forall (fun c => PyStr.isspace c = false) t.

(** What follows a token: the end of the text or a whitespace. *)
Definition delimited (rest : str) : Prop :=
  match rest with
  | [] => True
  | c :: _ => PyStr.isspace c = true
  end.

(** [tokens s toks]: [toks] are the whitespace-delimited tokens of [s],
    in order. *)
Inductive tokens : str -> list str -> Prop :=
| tokens_blank ws : blank ws -> tokens ws []
| tokens_word ws t rest toks :
    blank ws -> word t -> delimited rest -> tokens rest toks ->
    tokens (ws ++ t ++ rest) (t :: toks).

Definition keywords : list str :=
  map lit ["what"; "who"; "where"; "when"; "why"; "how"; "which"]%string.

Definition question_mark : N := 63.
Definition dot : N := 46.

(** Section 4.3, step 3: one of the first three tokens of the lower-cased
    text is a keyword, or the text has a question mark. *)
Definition is_question (W : World) (text : str) : Prop :=
  (exists toks t,
      tokens (PyStr.lower (unicode_lower W) text) toks /\
      In t (firstn 3 toks) /\ In t keywords)
  \/ In question_mark text.

Definition extensions : list str :=
  map lit ["png"; "jpg"; "jpeg"; "gif"; "bmp"; "webp"]%string.

(** Section 4.1: the file name has a dot and what follows its last dot
    is, lower-cased, an allowed extension. *)
Definition extension_allowed (W : World) (filename : str) : Prop :=
  exists base ext,
    filename = base ++ dot :: ext /\ ~ In dot ext /\
    In (PyStr.lower (unicode_lower W) ext) extensions.

(** The texts, in order, with a newline between two of them. *)
Definition lines (texts : list str) : str :=
  match texts with
  | [] => []
  | t :: ts => t ++ flat_map (fun x => 10 :: x) ts
  end.

(** The request parses and has no part named [image]. *)
Definition no_image_part (request : Request) : Prop :=
  exists parts,
    files request = Ok parts /\ forall f, ~ In (lit "image", f) parts.

(** The request parses and [f] is its part named [image] (the first
    one, should there be several). *)
Definition image_part (request : Request) (f : FileStorage) : Prop :=
  exists pre post,
    files request = Ok (pre ++ (lit "image", f) :: post) /\
    forall g, ~ In (lit "image", g) pre.

(** The request passes the three checks of upload validation, with [f]
    its image part. *)
Definition passes_validation (W : World) (request : Request)
    (f : FileStorage) : Prop :=
  image_part request f /\ filename f <> [] /\
  extension_allowed W (filename f).

(** The bytes of [f] decode to the pixel array [arr]. *)
Definition decodes (W : World) (f : FileStorage) (arr : ndarray W) : Prop :=
  exists img, Image_open W (stream f) = Ok img /\ np_array W img = Ok arr.

(** Section 4.4: what the answer is made of when the API fails. *)
Definition apology : str :=
  lit "Sorry, I couldn't generate an answer. Error: ".

(** Section 6: the API key is absent from the environment, or empty. *)
Definition key_missing (W : World) : Prop :=
  getenv W (lit "OPENAI_API_KEY") = None \/
  getenv W (lit "OPENAI_API_KEY") = Some (lit "").

(** The error of an analyzer built without a key: the one of the OCR
    engine if its construction fails, else the complaint about the key. *)
Definition init_failure (W : World) (languages : list str) : exn :=
  match easyocr_Reader W languages with
  | Ok _ => mk_exn (lit "ValueError") (lit "OpenAI API key is required")
  | Raise e => e
  end.

(** The upload directory: UPLOAD_FOLDER, or ./uploads. *)
Definition upload_folder (W : World) : str :=
  match getenv W (lit "UPLOAD_FOLDER") with
  | Some v => v
  | None => lit "./uploads"
  end.

(** The bodies of section 4.5. *)
Definition error_body (msg : string) : list (str * str) :=
  [(lit "error", lit msg)].

Definition no_question_body : list (str * str) :=
  [(lit "error", lit "No clear question found in the image");
   (lit "extracted_text", lit "")].

Definition answer_body (question answer : str) : list (str * str) :=
  [(lit "extracted_question", question); (lit "answer", answer)].

(** Events by kind, and how many of a kind a run emitted. *)
Definition is_log (ev : event) : bool :=
  match ev with Log _ _ => true | _ => false end.

Definition is_decode_call (ev : event) : bool :=
  match ev with CallImageOpen => true | _ => false end.

Definition is_ocr_call (ev : event) : bool :=
  match ev with CallReadtext => true | _ => false end.

Definition is_chat_call (ev : event) : bool :=
  match ev with CallChatCompletion _ => true | _ => false end.

Definition is_run_call (ev : event) : bool :=
  match ev with CallRun _ _ _ => true | _ => false end.

Definition count (p : event -> bool) (t : list event) : nat :=
  List.length (filter p t).

(** The image of [f] does not decode: [Image.open] raises [e], or it
    returns and [np.array] raises [e]; [t] are the calls made. *)
Definition decode_fails (W : World) (f : FileStorage) (e : exn)
    (t : list event) : Prop :=
  (Image_open W (stream f) = Raise e /\ t = [CallImageOpen]) \/
  (exists img,
      Image_open W (stream f) = Ok img /\ np_array W img = Raise e /\
      t = [CallImageOpen; CallNpArray]).

(** The decoding of the image of [f] ends with the exception [b], which
    is not an [Exception]; [t] are the calls made. *)
Definition decode_exits (W : World) (f : FileStorage) (b : base_exn)
    (t : list event) : Prop :=
  (Image_open W (stream f) = Exit b /\ t = [CallImageOpen]) \/
  (exists img,
      Image_open W (stream f) = Ok img /\ np_array W img = Exit b /\
      t = [CallImageOpen; CallNpArray]).

(** At most one error was logged. *)
Definition at_most_one_error (logs : list event) : Prop :=
  logs = [] \/ exists msg, logs = [Log ERROR msg].

(** The runs of the handler on a request, one constructor for each way
    through lines 157 to 194. *)
Inductive handler_path (W : World) (self : FlaskQuestionAnswerApp.t W)
    (request : Request) : M Response -> Prop :=
| path_files_raise e :
    files request = Raise e ->
    handler_path self request
      ([Log ERROR (lit "Question image processing failed: " ++ exc_str e)],
       Ok (error_body "Internal server error", 500%N))
| path_files_exit b :
    files request = Exit b ->
    handler_path self request ([], Exit b)
| path_no_image :
    no_image_part request ->
    handler_path self request
      ([], Ok (error_body "No image file provided", 400%N))
| path_empty_name f :
    image_part request f -> filename f = [] ->
    handler_path self request
      ([], Ok (error_body "No selected file", 400%N))
| path_extension f :
    image_part request f -> filename f <> [] ->
    ~ extension_allowed W (filename f) ->
    handler_path self request
      ([], Ok (error_body "Invalid file type", 400%N))
| path_decode_raise f e t :
    passes_validation W request f -> decode_fails W f e t ->
    handler_path self request
      (t ++ [Log ERROR (lit "Question image processing failed: "
                        ++ exc_str e)],
       Ok (error_body "Internal server error", 500%N))
| path_decode_exit f b t :
    passes_validation W request f -> decode_exits W f b t ->
    handler_path self request (t, Exit b)
| path_ocr_exit f arr b :
    passes_validation W request f -> decodes W f arr ->
    readtext W
      (QuestionOCRAnalyzer.reader
         (FlaskQuestionAnswerApp.question_analyzer self)) arr = Exit b ->
    handler_path self request
      ([CallImageOpen; CallNpArray; CallReadtext], Exit b)
| path_no_question f arr logs :
    passes_validation W request f -> decodes W f arr ->
    QuestionOCRAnalyzer.extract_question
      (FlaskQuestionAnswerApp.question_analyzer self) arr
    = (CallReadtext :: logs, Ok (lit "")) ->
    at_most_one_error logs ->
    handler_path self request
      ([CallImageOpen; CallNpArray; CallReadtext] ++ logs,
       Ok (no_question_body, 400%N))
| path_chat_exit f arr q b :
    passes_validation W request f -> decodes W f arr ->
    QuestionOCRAnalyzer.extract_question
      (FlaskQuestionAnswerApp.question_analyzer self) arr
    = ([CallReadtext], Ok q) ->
    q <> [] -> is_question W q ->
    ChatCompletion_create W (QuestionOCRAnalyzer.completion_request q)
    = Exit b ->
    handler_path self request
      ([CallImageOpen; CallNpArray; CallReadtext;
        CallChatCompletion (QuestionOCRAnalyzer.completion_request q)],
       Exit b)
| path_answer f arr q a logs :
    passes_validation W request f -> decodes W f arr ->
    QuestionOCRAnalyzer.extract_question
      (FlaskQuestionAnswerApp.question_analyzer self) arr
    = ([CallReadtext], Ok q) ->
    q <> [] -> is_question W q ->
    QuestionOCRAnalyzer.answer_question
      (FlaskQuestionAnswerApp.question_analyzer self) q
    = (CallChatCompletion (QuestionOCRAnalyzer.completion_request q)
         :: logs, Ok a) ->
    at_most_one_error logs ->
    handler_path self request
      ([CallImageOpen; CallNpArray; CallReadtext;
        CallChatCompletion (QuestionOCRAnalyzer.completion_request q)]
       ++ logs,
       Ok (answer_body q a, 200%N)).

(** The environment holds the non-empty API key [key]. *)
Definition key_present (W : World) (key : str) : Prop :=
  getenv W (lit "OPENAI_API_KEY") = Some key /\ key <> [].

(** A text of ASCII characters only. *)
Definition ascii_text (s : str) : Prop := forallb PyStr.is_ascii s = true.

End Spec.

(** * Worlds for the examples *)

Module Examples.

Local Open Scope N_scope.

(** Lower-casing of the Latin-1 letters, enough for the examples. *)
Definition latin1_lower (s : str) : str :=
  map (fun c =>
         if (65 <=? c) && (c <=? 90) then c + 32
         else if (192 <=? c) && (c <=? 222) && negb (c =? 215) then c + 32
         else c) s.

(** A world in which the environment holds [key] for [OPENAI_API_KEY],
    every image decodes to its own bytes, the OCR engine answers [ocr]
    and the chat API answers [chat]. *)
Definition world (key : option str) (ocr : completion (list ocr_result))
    (chat : completion chat_response) : World :=
  @mk_World unit (list N) (list N)
    latin1_lower
    (fun name => if PyStr.eqb name (lit "OPENAI_API_KEY") then key else None)
    (fun _ => Ok tt)
    (fun _ _ => ocr)
    (fun bytes => Ok bytes)
    (fun im => Ok im)
    (fun _ => chat)
    (fun _ => Ok tt)
    (fun _ _ _ => Ok tt).

Definition app (W : World) (r : Reader W) : FlaskQuestionAnswerApp.t W :=
  FlaskQuestionAnswerApp.mk (16 * 1024 * 1024) (lit "./uploads")
    (QuestionOCRAnalyzer.mk W r (lit "sk-example")).

Definition part (name : string) : FileStorage :=
  mk_FileStorage (lit name) [137; 80; 78; 71].

Definition upload (name : string) : Request :=
  mk_Request (Ok [(lit "image", part name)]).

Definition seen (text : string) : list ocr_result :=
  [mk_ocr_result [(0, 0); (90, 0); (90, 20); (0, 20)] (lit text) (9 # 10)%Q].

Definition valid_response : chat_response :=
  mk_chat_response [mk_chat_choice (lit "Mars has two moons.")].

Definition engine_error : exn :=
  mk_exn (lit "RuntimeError") (lit "CUDA out of memory").

Definition api_error : exn :=
  mk_exn (lit "APIConnectionError") (lit "Connection refused").

(** The OCR engine fails on every image. *)
Definition failing_ocr_world : World :=
  world (Some (lit "sk-example")) (Raise engine_error) (Ok valid_response).

(** The chat API fails on every question. *)
Definition failing_chat_world (text : string) : World :=
  world (Some (lit "sk-example")) (Ok (seen text)) (Raise api_error).

(** The environment has no API key. *)
Definition keyless_world : World :=
  world None (Ok []) (Ok valid_response).

(** A body larger than MAX_CONTENT_LENGTH: [request.files] raises. *)
Definition request_entity_too_large : exn :=
  mk_exn (lit "RequestEntityTooLarge")
    (lit "413 Request Entity Too Large: The data value transmitted exceeds the capacity limit.").

Definition oversized_upload : Request :=
  mk_Request (Raise request_entity_too_large).



(** Every service answers. *)
Definition working_world (text : string) : World :=
  world (Some (lit "sk-example")) (Ok (seen text)) (Ok valid_response).

(** [Image.open] rejects every upload. *)
Definition undecodable_world : World :=
  @mk_World unit (list N) (list N)
    latin1_lower
    (fun _ => Some (lit "sk-example"))
    (fun _ => Ok tt)
    (fun _ _ => Ok (seen "What is this?"))
    (fun _ => Raise (mk_exn (lit "UnidentifiedImageError")
                       (lit "cannot identify image file")))
    (fun im => Ok im)
    (fun _ => Ok valid_response)
    (fun _ => Ok tt)
    (fun _ _ _ => Ok tt).

(** The OCR engine cannot be constructed. *)
Definition engineless_world : World :=
  @mk_World unit (list N) (list N)
    latin1_lower
    (fun name =>
       if PyStr.eqb name (lit "OPENAI_API_KEY") then Some (lit "sk-example")
       else None)
    (fun _ => Raise engine_error)
    (fun _ _ => Ok [])
    (fun bytes => Ok bytes)
    (fun im => Ok im)
    (fun _ => Ok valid_response)
    (fun _ => Ok tt)
    (fun _ _ _ => Ok tt).

(** The upload directory cannot be created. *)
Definition readonly_world : World :=
  @mk_World unit (list N) (list N)
    latin1_lower
    (fun name =>
       if PyStr.eqb name (lit "OPENAI_API_KEY") then Some (lit "sk-example")
       else None)
    (fun _ => Ok tt)
    (fun _ _ => Ok [])
    (fun bytes => Ok bytes)
    (fun im => Ok im)
    (fun _ => Ok valid_response)
    (fun _ => Raise (mk_exn (lit "PermissionError") (lit "Permission denied")))
    (fun _ _ _ => Ok tt).

End Examples.

(** * Properties *)

(** ** The monad *)

Lemma bind_ret_l {A B} (a : A) (k : A -> M B) : bind (ret a) k = k a.
Proof. unfold bind, ret. destruct (k a). reflexivity. Qed.

Lemma bind_ok {A B} (t : list event) (a : A) (k : A -> M B) :
  bind (t, Ok a) k = (t ++ trace (k a), outcome (k a)).
Proof. unfold bind. destruct (k a). reflexivity. Qed.

Lemma bind_raise {A B} (t : list event) (e : exn) (k : A -> M B) :
  bind (t, Raise e) k = (t, Raise e).
Proof. reflexivity. Qed.

Lemma bind_exit {A B} (t : list event) (b : base_exn) (k : A -> M B) :
  bind (t, Exit b) k = (t, Exit b).
Proof. reflexivity. Qed.

Lemma try_except_exit {A} (t : list event) (b : base_exn)
    (h : exn -> M A) :
  try_except (t, Exit b) h = (t, Exit b).
Proof. reflexivity. Qed.

Lemma try_except_ok {A} (t : list event) (a : A) (h : exn -> M A) :
  try_except (t, Ok a) h = (t, Ok a).
Proof. reflexivity. Qed.

Lemma try_except_raise {A} (t : list event) (e : exn) (h : exn -> M A) :
  try_except (t, Raise e) h = (t ++ trace (h e), outcome (h e)).
Proof. unfold try_except. destruct (h e). reflexivity. Qed.

(** ** Strings *)

Module PyStrFacts.

Local Open Scope N_scope.

Lemma eqb_eq (a b : str) : PyStr.eqb a b = true <-> a = b.
Proof.
  revert b; induction a as [|x a IH]; intros [|y b]; simpl;
    try (split; [discriminate | discriminate]); try tauto.
  rewrite andb_true_iff, N.eqb_eq, IH.
  split; [intros [-> ->]; reflexivity | intros H; inversion H; auto].
Qed.

Lemma eqb_refl (a : str) : PyStr.eqb a a = true.
Proof. apply eqb_eq; reflexivity. Qed.

Lemma eqb_neq (a b : str) : PyStr.eqb a b = false <-> a <> b.
Proof.
  rewrite <- eqb_eq. destruct (PyStr.eqb a b); split; congruence.
Qed.

Lemma list_contains_In (x : str) (l : list str) :
  PyStr.list_contains x l = true <-> In x l.
Proof.
  unfold PyStr.list_contains. rewrite existsb_exists. split.
  - intros (y & Hy & E). apply eqb_eq in E. subst; assumption.
  - intros H. exists x. split; [assumption | apply eqb_refl].
Qed.

(** Searching for a one-character string is membership of the
    character. *)
Lemma contains_char (c : N) (s : str) :
  PyStr.contains [c] s = true <-> In c s.
Proof.
  induction s as [|y s IH]; simpl.
  - split; [discriminate | tauto].
  - rewrite orb_true_iff, andb_true_iff, N.eqb_eq, IH.
    split.
    + intros [[-> _] | H]; auto.
    + intros [-> | H]; auto.
Qed.

Lemma rcut_sound (sep : N) (s : str) :
  match PyStr.rcut sep s with
  | Some (a, b) => s = a ++ sep :: b /\ ~ In sep b
  | None => ~ In sep s
  end.
Proof.
  induction s as [|c s IH]; simpl.
  - tauto.
  - destruct (PyStr.rcut sep s) as [[a b]|].
    + destruct IH as [-> Hb]. split; [reflexivity | assumption].
    + destruct (N.eqb_spec c sep) as [->|Hc].
      * split; [reflexivity | assumption].
      * intros [E|H]; [congruence | tauto].
Qed.

Lemma rcut_None (sep : N) (s : str) :
  PyStr.rcut sep s = None <-> ~ In sep s.
Proof.
  pose proof (rcut_sound sep s) as H.
  destruct (PyStr.rcut sep s) as [[a b]|].
  - destruct H as [-> _]. split; [discriminate|].
    intros H. exfalso. apply H. apply in_or_app. right; left; reflexivity.
  - tauto.
Qed.

(** [rcut] cuts at the last occurrence of the separator. *)
Lemma rcut_Some (sep : N) (s a b : str) :
  PyStr.rcut sep s = Some (a, b) <-> s = a ++ sep :: b /\ ~ In sep b.
Proof.
  split.
  - intros R. pose proof (rcut_sound sep s) as H. rewrite R in H. exact H.
  - intros [-> Hb]. induction a as [|x a IH]; simpl.
    + rewrite (proj2 (rcut_None sep b) Hb), N.eqb_refl. reflexivity.
    + rewrite IH. reflexivity.
Qed.

End PyStrFacts.

(** ** [split] computes the whitespace-delimited tokens *)

Section Split.

Local Open Scope N_scope.

Lemma split_from_nil (cur : str) :
  PyStr.split_from cur [] = match cur with [] => [] | _ => [cur] end.
Proof. reflexivity. Qed.

Lemma split_from_space (cur : str) (c : N) (s : str) :
  PyStr.isspace c = true ->
  PyStr.split_from cur (c :: s) =
  match cur with [] => PyStr.split s | _ => cur :: PyStr.split s end.
Proof. intros H. simpl. rewrite H. destruct cur; reflexivity. Qed.

Lemma split_from_word (cur t rest : str) :
  Forall (fun c => PyStr.isspace c = false) t ->
  PyStr.split_from cur (t ++ rest) = PyStr.split_from (cur ++ t) rest.
Proof.
  intros H. revert cur. induction H as [|c t Hc _ IH]; intros cur; simpl.
  - rewrite app_nil_r. reflexivity.
  - rewrite Hc, IH, <- app_assoc. reflexivity.
Qed.

Lemma split_blank (ws rest : str) :
  Spec.blank ws -> PyStr.split (ws ++ rest) = PyStr.split rest.
Proof.
  unfold PyStr.split. induction 1 as [|c ws Hc _ IH]; simpl.
  - reflexivity.
  - rewrite Hc. exact IH.
Qed.

Lemma split_delimited (t rest : str) :
  t <> [] -> Spec.delimited rest ->
  PyStr.split_from t rest = t :: PyStr.split rest.
Proof.
  intros Ht Hd. destruct rest as [|c rest].
  - destruct t; [congruence | reflexivity].
  - simpl in Hd. rewrite split_from_space by assumption.
    destruct t; [congruence|].
    unfold PyStr.split. simpl. rewrite Hd. reflexivity.
Qed.

(** The tokens of a text are unique: they are what [split] returns. *)
Lemma tokens_split (s : str) (toks : list str) :
  Spec.tokens s toks -> toks = PyStr.split s.
Proof.
  induction 1 as [ws Hws | ws t rest toks Hws [Ht Hw] Hd _ IH].
  - rewrite <- (app_nil_r ws), split_blank by assumption. reflexivity.
  - rewrite split_blank by assumption.
    unfold PyStr.split at 1. rewrite split_from_word by assumption.
    simpl. rewrite split_delimited by assumption. congruence.
Qed.

Lemma tokens_space (c : N) (s : str) (toks : list str) :
  PyStr.isspace c = true -> Spec.tokens s toks -> Spec.tokens (c :: s) toks.
Proof.
  intros Hc H. destruct H as [ws Hws | ws t rest toks Hws Ht Hd Hr].
  - constructor. constructor; assumption.
  - apply (Spec.tokens_word (ws := c :: ws)); try assumption.
    constructor; assumption.
Qed.

Lemma split_from_tokens (s cur : str) :
  Forall (fun c => PyStr.isspace c = false) cur ->
  Spec.tokens (cur ++ s) (PyStr.split_from cur s).
Proof.
  revert cur. induction s as [|c s IH]; intros cur Hcur.
  - rewrite app_nil_r. destruct cur as [|x cur].
    + constructor. constructor.
    + simpl.
      pose proof (@Spec.tokens_word [] (x :: cur) [] []) as H.
      simpl in H. rewrite app_nil_r in H. apply H.
      * constructor.
      * split; [discriminate | assumption].
      * exact I.
      * constructor. constructor.
  - simpl. destruct (PyStr.isspace c) eqn:Hc.
    + destruct cur as [|x cur].
      * simpl. apply tokens_space; [assumption|]. apply (IH []). constructor.
      * apply (@Spec.tokens_word [] (x :: cur) (c :: s)).
        -- constructor.
        -- split; [discriminate | assumption].
        -- exact Hc.
        -- apply tokens_space; [assumption|]. apply (IH []). constructor.
    + replace (cur ++ c :: s) with ((cur ++ [c]) ++ s)
        by (rewrite <- app_assoc; reflexivity).
      apply IH. apply Forall_app. split; [assumption|].
      constructor; [assumption | constructor].
Qed.

(** [split] returns the tokens of the text. *)
Lemma split_tokens (s : str) : Spec.tokens s (PyStr.split s).
Proof. apply (split_from_tokens s (cur := [])). constructor. Qed.

End Split.

(** ** The question heuristic *)

Section Heuristic.

Variable W : World.

Lemma keywords_agree : QuestionOCRAnalyzer.question_keywords = Spec.keywords.
Proof. reflexivity. Qed.

Lemma is_likely_question_iff (text : str) :
  QuestionOCRAnalyzer.is_likely_question W text = true <->
  Spec.is_question W text.
Proof.
  unfold QuestionOCRAnalyzer.is_likely_question, Spec.is_question.
  rewrite orb_true_iff, existsb_exists, keywords_agree.
  change (lit "?") with [Spec.question_mark].
  rewrite PyStrFacts.contains_char.
  split; (intros [H|H]; [left | right; exact H]).
  - destruct H as (kw & Hkw & Hin).
    apply PyStrFacts.list_contains_In in Hin.
    exists (PyStr.split (PyStr.lower (unicode_lower W) text)), kw.
    split; [apply split_tokens | split; assumption].
  - destruct H as (toks & t & Htoks & Hin & Hkw).
    apply tokens_split in Htoks. subst toks.
    exists t. split; [assumption|].
    apply PyStrFacts.list_contains_In. assumption.
Qed.

Lemma empty_not_question : ~ Spec.is_question W [].
Proof.
  rewrite <- is_likely_question_iff. discriminate.
Qed.

(** C2. The heuristic classifies a text as a question exactly when one
    of the first three whitespace-delimited tokens of the lower-cased
    text is one of what, who, where, when, why, how, which, or the text
    contains a question mark.  A question is returned unchanged, any
    other text gives the empty string, and the empty text is not a
    question. *)
Theorem question_heuristic_spec (text : str) :
  (QuestionOCRAnalyzer.is_likely_question W text = true <->
   Spec.is_question W text) /\
  ((Spec.is_question W text /\
    QuestionOCRAnalyzer.question_heuristic W text = text) \/
   (~ Spec.is_question W text /\
    QuestionOCRAnalyzer.question_heuristic W text = lit "")) /\
  (QuestionOCRAnalyzer.is_likely_question W [] = false /\
   QuestionOCRAnalyzer.question_heuristic W [] = lit "").
Proof.
  split; [apply is_likely_question_iff|]. split; [|split; reflexivity].
  unfold QuestionOCRAnalyzer.question_heuristic.
  destruct (QuestionOCRAnalyzer.is_likely_question W text) eqn:E.
  - left. split; [apply is_likely_question_iff; exact E | reflexivity].
  - right. split; [|reflexivity].
    rewrite <- is_likely_question_iff. congruence.
Qed.

End Heuristic.

(** The examples of section 8 of the specification. *)

Example heuristic_keyword :
  QuestionOCRAnalyzer.question_heuristic
    (Examples.world None (Ok []) (Ok (mk_chat_response [])))
    (lit "What is the capital of France")
  = lit "What is the capital of France".
Proof. vm_compute. reflexivity. Qed.

Example heuristic_statement :
  QuestionOCRAnalyzer.question_heuristic
    (Examples.world None (Ok []) (Ok (mk_chat_response [])))
    (lit "The sky is blue")
  = lit "".
Proof. vm_compute. reflexivity. Qed.

Example heuristic_question_mark :
  QuestionOCRAnalyzer.question_heuristic
    (Examples.world None (Ok []) (Ok (mk_chat_response [])))
    (lit "Is this correct?")
  = lit "Is this correct?".
Proof. vm_compute. reflexivity. Qed.

(** Case does not matter, and a line break separates tokens as a space
    does. *)
Example heuristic_upper_case :
  QuestionOCRAnalyzer.question_heuristic
    (Examples.world None (Ok []) (Ok (mk_chat_response [])))
    (lit "WHO painted this")
  = lit "WHO painted this".
Proof. vm_compute. reflexivity. Qed.

Example heuristic_third_token_next_line :
  QuestionOCRAnalyzer.question_heuristic
    (Examples.world None (Ok []) (Ok (mk_chat_response [])))
    (lit "Exercise 4" ++ PyStr.newline ++ lit "Which planet is largest")
  = lit "Exercise 4" ++ PyStr.newline ++ lit "Which planet is largest".
Proof. vm_compute. reflexivity. Qed.

(** A keyword in fourth position, or inside a longer token, does not
    count. *)
Example heuristic_fourth_token :
  QuestionOCRAnalyzer.question_heuristic
    (Examples.world None (Ok []) (Ok (mk_chat_response [])))
    (lit "Please tell me what this is")
  = lit "".
Proof. vm_compute. reflexivity. Qed.

Example heuristic_substring :
  QuestionOCRAnalyzer.question_heuristic
    (Examples.world None (Ok []) (Ok (mk_chat_response [])))
    (lit "Whatever happens")
  = lit "".
Proof. vm_compute. reflexivity. Qed.

(** ** Upload validation: the file name *)

Section AllowedFile.

Variable W : World.

Lemma extensions_agree :
  FlaskQuestionAnswerApp.ALLOWED_EXTENSIONS = Spec.extensions.
Proof. reflexivity. Qed.

(** [allowed_file] never raises: the index 1 is only taken of a file
    name that has a dot, which [rsplit] cuts in two. *)
Lemma allowed_file_rcut (filename : str) :
  FlaskQuestionAnswerApp.allowed_file W filename =
  ret match PyStr.rcut Spec.dot filename with
      | Some (_, ext) =>
          PyStr.list_contains (PyStr.lower (unicode_lower W) ext)
            FlaskQuestionAnswerApp.ALLOWED_EXTENSIONS
      | None => false
      end.
Proof.
  unfold FlaskQuestionAnswerApp.allowed_file, PyStr.rsplit1.
  change (lit ".") with [Spec.dot]. change 46%N with Spec.dot.
  pose proof (rcut_sound := PyStrFacts.rcut_sound Spec.dot filename).
  destruct (PyStr.contains [Spec.dot] filename) eqn:C.
  - apply PyStrFacts.contains_char in C.
    destruct (PyStr.rcut Spec.dot filename) as [[a b]|]; [reflexivity | tauto].
  - destruct (PyStr.rcut Spec.dot filename) as [[a b]|]; [|reflexivity].
    destruct rcut_sound as [-> _].
    assert (PyStr.contains [Spec.dot] (a ++ Spec.dot :: b) = true) as C'.
    { apply PyStrFacts.contains_char, in_or_app. right; left; reflexivity. }
    congruence.
Qed.

Lemma allowed_file_iff (filename : str) :
  FlaskQuestionAnswerApp.allowed_file W filename = ret true <->
  Spec.extension_allowed W filename.
Proof.
  rewrite allowed_file_rcut. unfold Spec.extension_allowed.
  rewrite extensions_agree. split.
  - intros H.
    destruct (PyStr.rcut Spec.dot filename) as [[a b]|] eqn:R;
      [|discriminate].
    apply PyStrFacts.rcut_Some in R as [-> Hb].
    exists a, b. split; [reflexivity|]. split; [assumption|].
    apply PyStrFacts.list_contains_In. inversion H. reflexivity.
  - intros (base & ext & -> & Hext & Hin).
    rewrite (proj2 (PyStrFacts.rcut_Some Spec.dot _ base ext))
      by (split; [reflexivity | assumption]).
    apply PyStrFacts.list_contains_In in Hin. rewrite Hin. reflexivity.
Qed.

Lemma allowed_file_total (filename : str) :
  exists b, FlaskQuestionAnswerApp.allowed_file W filename = ret b.
Proof. rewrite allowed_file_rcut. eexists; reflexivity. Qed.

(** C3. Upload validation accepts a file name exactly when it has a dot
    and the lower-cased text after its last dot is one of png, jpg, jpeg,
    gif, bmp, webp.  A name without a dot is rejected, and the case of the
    extension does not matter: PHOTO.JPG is accepted. *)
Theorem allowed_file_spec (filename : str) :
  (exists b,
      FlaskQuestionAnswerApp.allowed_file W filename = ret b /\
      (b = true <-> Spec.extension_allowed W filename)) /\
  (In Spec.dot filename \/
   FlaskQuestionAnswerApp.allowed_file W filename = ret false) /\
  FlaskQuestionAnswerApp.allowed_file W (lit "PHOTO.JPG") = ret true.
Proof.
  split; [|split].
  - destruct (allowed_file_total filename) as [b Hb]. exists b.
    split; [assumption|]. rewrite <- allowed_file_iff, Hb.
    split; [intros ->; reflexivity | intros H; inversion H; reflexivity].
  - destruct (in_dec N.eq_dec Spec.dot filename) as [Hin|Hnin];
      [left; assumption | right].
    rewrite allowed_file_rcut.
    rewrite (proj2 (PyStrFacts.rcut_None Spec.dot filename) Hnin).
    reflexivity.
  - reflexivity.
Qed.

(** C10. A file name that is only a dot and an allowed extension, such
    as .png, passes upload validation: its base name is empty. *)
Theorem allowed_file_empty_base (e : str) :
  In e FlaskQuestionAnswerApp.ALLOWED_EXTENSIONS ->
  FlaskQuestionAnswerApp.allowed_file W (Spec.dot :: e) = ret true.
Proof.
  intros He.
  assert (~ In Spec.dot e /\ PyStr.lower (unicode_lower W) e = e) as [Hd Hl].
  { unfold FlaskQuestionAnswerApp.ALLOWED_EXTENSIONS in He. simpl in He.
    repeat (destruct He as [<-|He];
            [split; [vm_compute; intuition discriminate | reflexivity]|]).
    contradiction. }
  apply allowed_file_iff. exists [], e.
  split; [reflexivity|]. split; [assumption|].
  rewrite Hl, <- extensions_agree. assumption.
Qed.

End AllowedFile.

Lemma allowed_file_empty_base_witness :
  In (lit "png") FlaskQuestionAnswerApp.ALLOWED_EXTENSIONS /\
  FlaskQuestionAnswerApp.allowed_file
    (Examples.world None (Ok []) (Ok (mk_chat_response []))) (lit ".png")
  = ret true.
Proof.
  split.
  - simpl. left. reflexivity.
  - apply (allowed_file_empty_base
             (Examples.world None (Ok []) (Ok (mk_chat_response [])))
             (e := lit "png")).
    simpl. left. reflexivity.
Defined.

Example allowed_file_examples :
  let W := Examples.world None (Ok []) (Ok (mk_chat_response [])) in
  map (fun name => outcome (FlaskQuestionAnswerApp.allowed_file W (lit name)))
    ["scan.png"; "a.b.JpEg"; "photo"; "archive.tar.gz"; "png"; "x."; ".webp"]%string
  = map (fun b => Done (Ok b)) [true; true; false; false; false; false; true].
Proof. vm_compute. reflexivity. Qed.

(** ** The OCR adapter *)

Section Extract.

Variable W : World.
Variable self : QuestionOCRAnalyzer.t W.

Lemma join_lines (texts : list str) :
  PyStr.join PyStr.newline texts = Spec.lines texts.
Proof.
  induction texts as [|t ts IH]; [reflexivity|].
  destruct ts as [|t' ts].
  - simpl. rewrite app_nil_r. reflexivity.
  - change (PyStr.join PyStr.newline (t :: t' :: ts))
      with (t ++ PyStr.newline ++ PyStr.join PyStr.newline (t' :: ts)).
    rewrite IH. reflexivity.
Qed.

Lemma extract_question_ok (arr : ndarray W) (results : list ocr_result) :
  readtext W (QuestionOCRAnalyzer.reader self) arr = Ok results ->
  QuestionOCRAnalyzer.extract_question self arr =
  ([CallReadtext],
   Ok (QuestionOCRAnalyzer.question_heuristic W
         (QuestionOCRAnalyzer.full_text_of results))).
Proof.
  intros H. unfold QuestionOCRAnalyzer.extract_question, call.
  rewrite H. reflexivity.
Qed.

Lemma extract_question_raise (arr : ndarray W) (e : exn) :
  readtext W (QuestionOCRAnalyzer.reader self) arr = Raise e ->
  QuestionOCRAnalyzer.extract_question self arr =
  ([CallReadtext;
    Log ERROR (lit "Question extraction failed: " ++ exc_str e)],
   Ok (lit "")).
Proof.
  intros H. unfold QuestionOCRAnalyzer.extract_question, call.
  rewrite H. reflexivity.
Qed.

(** C7. The extracted text is the text fields of the triples the OCR
    engine returned, in the engine's order, joined with newlines; the
    bounding regions and the confidences play no part. *)
Theorem extracted_text_lines (arr : ndarray W) (results : list ocr_result) :
  readtext W (QuestionOCRAnalyzer.reader self) arr = Ok results ->
  QuestionOCRAnalyzer.full_text_of results = Spec.lines (map ocr_text results)
  /\ outcome (QuestionOCRAnalyzer.extract_question self arr) =
     Ok (QuestionOCRAnalyzer.question_heuristic W
           (Spec.lines (map ocr_text results)))
  /\ (forall results',
        map ocr_text results' = map ocr_text results ->
        QuestionOCRAnalyzer.full_text_of results' =
        QuestionOCRAnalyzer.full_text_of results).
Proof.
  intros H. split; [apply join_lines|]. split.
  - rewrite (extract_question_ok _ H). simpl.
    unfold QuestionOCRAnalyzer.full_text_of. rewrite join_lines. reflexivity.
  - intros results' E. unfold QuestionOCRAnalyzer.full_text_of.
    rewrite E. reflexivity.
Qed.

End Extract.

Lemma extracted_text_lines_witness :
  let results := Examples.seen "How many moons" ++ Examples.seen "does Mars have?" in
  let W := Examples.world None (Ok results) (Ok (mk_chat_response [])) in
  QuestionOCRAnalyzer.full_text_of results =
  Spec.lines [lit "How many moons"; lit "does Mars have?"]
  /\ outcome (QuestionOCRAnalyzer.extract_question
                (QuestionOCRAnalyzer.mk W tt (lit "sk-example")) [1%N]) =
     Ok (QuestionOCRAnalyzer.question_heuristic W
           (Spec.lines [lit "How many moons"; lit "does Mars have?"]))
  /\ (forall results',
        map ocr_text results' = map ocr_text results ->
        QuestionOCRAnalyzer.full_text_of results' =
        QuestionOCRAnalyzer.full_text_of results).
Proof.
  intros results W.
  apply (@extracted_text_lines W
           (QuestionOCRAnalyzer.mk W tt (lit "sk-example")) [1%N] results).
  reflexivity.
Defined.

(** ** The HTTP handler *)

Arguments PyStr.lit : simpl never.

Section Handler.

Variable W : World.
Variable self : FlaskQuestionAnswerApp.t W.

Lemma request_files_ok (request : Request)
    (parts : list (str * FileStorage)) :
  files request = Ok parts -> request_files request = ret parts.
Proof. intros H. unfold request_files. rewrite H. reflexivity. Qed.

Lemma no_image_part_find (request : Request) :
  Spec.no_image_part request ->
  exists parts,
    files request = Ok parts /\
    files_contains (lit "image") parts = false.
Proof.
  unfold Spec.no_image_part, files_contains. intros (parts & Hf & H).
  exists parts. split; [assumption|].
  destruct (existsb _ parts) eqn:E; [|reflexivity].
  apply existsb_exists in E as ([k f] & Hin & Hk).
  apply PyStrFacts.eqb_eq in Hk. simpl in Hk. subst k.
  exfalso. exact (H f Hin).
Qed.

Lemma image_part_find (request : Request) (f : FileStorage) :
  Spec.image_part request f ->
  exists parts,
    files request = Ok parts /\
    files_contains (lit "image") parts = true /\
    files_getitem (lit "image") parts = ret f.
Proof.
  intros (pre & post & E & Hpre). eexists. split; [exact E|].
  unfold files_contains, files_getitem. split.
  - rewrite existsb_app. cbn [existsb fst]. rewrite PyStrFacts.eqb_refl.
    apply orb_true_r.
  - clear E. induction pre as [|[k g] pre IH]; cbn [app find fst snd].
    + rewrite PyStrFacts.eqb_refl. reflexivity.
    + destruct (PyStr.eqb (lit "image") k) eqn:Ek.
      * apply PyStrFacts.eqb_eq in Ek. subst k.
        exfalso. apply (Hpre g). left; reflexivity.
      * apply IH. intros g' Hg'. apply (Hpre g'). right; assumption.
Qed.

Lemma filename_nonempty (f : FileStorage) :
  filename f <> [] -> PyStr.eqb (filename f) (lit "") = false.
Proof. intros H. apply PyStrFacts.eqb_neq. exact H. Qed.

(** The handler on a request that passes validation and whose image
    decodes: what is left is the question and the answer. *)
Lemma handler_validated (request : Request) (f : FileStorage)
    (arr : ndarray W) :
  Spec.passes_validation W request f -> Spec.decodes W f arr ->
  FlaskQuestionAnswerApp.process_question_image self request =
  try_except
    (bind ([CallImageOpen; CallNpArray], Ok arr) (fun image_array =>
     extracted_question <-
       QuestionOCRAnalyzer.extract_question
         (FlaskQuestionAnswerApp.question_analyzer self) image_array ;;
     if negb (PyStr.truthy extracted_question)
     then ret (Spec.no_question_body, 400%N)
     else
       answer <-
         QuestionOCRAnalyzer.answer_question
           (FlaskQuestionAnswerApp.question_analyzer self)
           extracted_question ;;
       ret (Spec.answer_body extracted_question answer, 200%N)))
    (fun e =>
       log ERROR (lit "Question image processing failed: " ++ exc_str e) ;;;
       ret (Spec.error_body "Internal server error", 500%N)).
Proof.
  intros (Hpart & Hname & Hext) (img & Himg & Harr).
  apply image_part_find in Hpart as (parts & Hf & Hin & Hget).
  apply allowed_file_iff in Hext.
  unfold FlaskQuestionAnswerApp.process_question_image.
  rewrite (request_files_ok _ Hf), bind_ret_l, Hin, Hget. cbn [negb]. rewrite bind_ret_l.
  rewrite (@filename_nonempty f Hname), Hext, bind_ret_l. cbn [negb].
  unfold call. rewrite Himg, bind_ok, Harr, !bind_ok.
  reflexivity.
Qed.

End Handler.

(** ** The answer adapter *)

Section Answer.

Variable W : World.
Variable self : QuestionOCRAnalyzer.t W.

Lemma answer_question_raise (question : str) (e : exn) :
  ChatCompletion_create W (QuestionOCRAnalyzer.completion_request question)
  = Raise e ->
  QuestionOCRAnalyzer.answer_question self question =
  ([CallChatCompletion (QuestionOCRAnalyzer.completion_request question);
    Log ERROR (lit "Question answering failed: " ++ exc_str e)],
   Ok (Spec.apology ++ exc_str e)).
Proof.
  intros H. unfold QuestionOCRAnalyzer.answer_question, call.
  cbv zeta. rewrite H. reflexivity.
Qed.

Lemma answer_question_exit (question : str) (b : base_exn) :
  ChatCompletion_create W (QuestionOCRAnalyzer.completion_request question)
  = Exit b ->
  QuestionOCRAnalyzer.answer_question self question =
  ([CallChatCompletion (QuestionOCRAnalyzer.completion_request question)],
   Exit b).
Proof.
  intros H. unfold QuestionOCRAnalyzer.answer_question, call.
  cbv zeta. rewrite H. reflexivity.
Qed.

(** The adapter returns, unless the API call ends with an exception that
    is not an [Exception]. *)
Lemma answer_question_ends (question : str) :
  (exists t a,
      QuestionOCRAnalyzer.answer_question self question = (t, Ok a))
  \/ (exists b,
        ChatCompletion_create W
          (QuestionOCRAnalyzer.completion_request question) = Exit b /\
        QuestionOCRAnalyzer.answer_question self question =
        ([CallChatCompletion
            (QuestionOCRAnalyzer.completion_request question)], Exit b)).
Proof.
  destruct (ChatCompletion_create W
              (QuestionOCRAnalyzer.completion_request question))
    as [[[[|c cs]]|e]|b] eqn:H.
  - left. unfold QuestionOCRAnalyzer.answer_question, call. cbv zeta.
    rewrite H. eexists _, _. reflexivity.
  - left. unfold QuestionOCRAnalyzer.answer_question, call. cbv zeta.
    rewrite H. eexists _, _. reflexivity.
  - left. rewrite (answer_question_raise _ H). eexists _, _. reflexivity.
  - right. exists b. split; [reflexivity | apply answer_question_exit, H].
Qed.

End Answer.

(** ** The handler: what it responds *)

Section HandlerClaims.

Variable W : World.
Variable self : FlaskQuestionAnswerApp.t W.

Let analyzer := FlaskQuestionAnswerApp.question_analyzer self.

Lemma extract_question_exit (arr : ndarray W) (b : base_exn) :
  readtext W (QuestionOCRAnalyzer.reader analyzer) arr = Exit b ->
  QuestionOCRAnalyzer.extract_question analyzer arr
  = ([CallReadtext], Exit b).
Proof.
  intros H. unfold QuestionOCRAnalyzer.extract_question, call.
  rewrite H. reflexivity.
Qed.


(** It calls the OCR engine and may log; it does nothing else. *)
Lemma extract_question_trace (arr : ndarray W) (ev : event) :
  In ev (trace (QuestionOCRAnalyzer.extract_question analyzer arr)) ->
  ev = CallReadtext \/ exists msg, ev = Log ERROR msg.
Proof.
  destruct (readtext W (QuestionOCRAnalyzer.reader analyzer) arr)
    as [[results|e]|b] eqn:R.
  - rewrite (extract_question_ok _ _ R). cbn [trace fst In].
    intros [<-|[]]. left; reflexivity.
  - rewrite (extract_question_raise _ _ R). cbn [trace fst In].
    intros [<-|[<-|[]]]; [left; reflexivity | right; eexists; reflexivity].
  - rewrite (extract_question_exit _ R). cbn [trace fst In].
    intros [<-|[]]. left; reflexivity.
Qed.

Lemma handler_no_question (request : Request) (f : FileStorage)
    (arr : ndarray W) (t : list event) :
  Spec.passes_validation W request f -> Spec.decodes W f arr ->
  QuestionOCRAnalyzer.extract_question analyzer arr = (t, Ok (lit "")) ->
  FlaskQuestionAnswerApp.process_question_image self request =
  ([CallImageOpen; CallNpArray] ++ t, Ok (Spec.no_question_body, 400%N)).
Proof.
  intros Hv Hd He. rewrite (handler_validated self Hv Hd).
  fold analyzer. rewrite bind_ok, He, bind_ok.
  change (lit "") with (@nil PyStr.codepoint).
  cbn [PyStr.truthy negb ret trace outcome fst snd].
  rewrite app_nil_r. reflexivity.
Qed.

Lemma handler_question (request : Request) (f : FileStorage)
    (arr : ndarray W) (t t' : list event) (q a : str) :
  Spec.passes_validation W request f -> Spec.decodes W f arr ->
  QuestionOCRAnalyzer.extract_question analyzer arr = (t, Ok q) ->
  q <> [] ->
  QuestionOCRAnalyzer.answer_question analyzer q = (t', Ok a) ->
  FlaskQuestionAnswerApp.process_question_image self request =
  ([CallImageOpen; CallNpArray] ++ t ++ t',
   Ok (Spec.answer_body q a, 200%N)).
Proof.
  intros Hv Hd He Hq Ha. rewrite (handler_validated self Hv Hd).
  fold analyzer. rewrite bind_ok, He, bind_ok.
  destruct q as [|c q]; [congruence|]. cbn [PyStr.truthy negb].
  rewrite Ha, bind_ok. cbn [ret trace outcome fst snd].
  rewrite app_nil_r. reflexivity.
Qed.

(** C1, as the code has it.  On a request that passes upload validation
    and whose image decodes, an exception of the OCR engine during text
    recognition is caught inside [extract_question], logged, and turned
    into the empty string: the handler responds 400 with the body of
    "No clear question found in the image", not 500. *)
Theorem ocr_exception_gives_400 (request : Request) (f : FileStorage)
    (arr : ndarray W) (e : exn) :
  Spec.passes_validation W request f -> Spec.decodes W f arr ->
  readtext W (QuestionOCRAnalyzer.reader analyzer) arr = Raise e ->
  FlaskQuestionAnswerApp.process_question_image self request =
  ([CallImageOpen; CallNpArray; CallReadtext;
    Log ERROR (lit "Question extraction failed: " ++ exc_str e)],
   Ok (Spec.no_question_body, 400%N)).
Proof.
  intros Hv Hd Hr.
  rewrite (handler_no_question Hv Hd (extract_question_raise _ _ Hr)).
  reflexivity.
Qed.

(** C4. When the chat-completion call raises, the answer adapter returns
    "Sorry, I couldn't generate an answer. Error: " followed by the
    message of the error, as a normal value; the handler then responds
    200 with that string in the answer field. *)
Theorem chat_failure_is_an_answer (question : str) (e : exn) :
  ChatCompletion_create W (QuestionOCRAnalyzer.completion_request question)
  = Raise e ->
  outcome (QuestionOCRAnalyzer.answer_question analyzer question)
  = Ok (Spec.apology ++ exc_str e)
  /\ forall request f arr,
      Spec.passes_validation W request f -> Spec.decodes W f arr ->
      outcome (QuestionOCRAnalyzer.extract_question analyzer arr)
      = Ok question ->
      question <> [] ->
      outcome (FlaskQuestionAnswerApp.process_question_image self request)
      = Ok (Spec.answer_body question (Spec.apology ++ exc_str e), 200%N).
Proof.
  intros Hc. pose proof (answer_question_raise analyzer _ Hc) as Ha.
  split; [rewrite Ha; reflexivity|].
  intros request f arr Hv Hd He Hq.
  destruct (QuestionOCRAnalyzer.extract_question analyzer arr)
    as [t s] eqn:Et.
  cbn [outcome snd] in He. subst s.
  rewrite (handler_question Hv Hd Et Hq Ha). reflexivity.
Qed.

(** C6. When the question heuristic returns the empty string, the
    handler responds 400 with the error "No clear question found in the
    image" and an empty extracted_text, and the chat-completion API is
    not called. *)
Theorem no_question_gives_400 (request : Request) (f : FileStorage)
    (arr : ndarray W) :
  Spec.passes_validation W request f -> Spec.decodes W f arr ->
  outcome (QuestionOCRAnalyzer.extract_question analyzer arr) = Ok (lit "") ->
  outcome (FlaskQuestionAnswerApp.process_question_image self request)
  = Ok (Spec.no_question_body, 400%N)
  /\ forall req,
      ~ In (CallChatCompletion req)
          (trace (FlaskQuestionAnswerApp.process_question_image self request)).
Proof.
  intros Hv Hd He.
  pose proof (extract_question_trace arr) as Htr.
  destruct (QuestionOCRAnalyzer.extract_question analyzer arr)
    as [t s] eqn:Et.
  cbn [outcome snd] in He. subst s. cbn [trace fst] in Htr.
  rewrite (handler_no_question Hv Hd Et). split; [reflexivity|].
  intros req. cbn [trace fst app In].
  intros [H|[H|H]]; try discriminate.
  destruct (Htr _ H) as [H'|[msg H']]; discriminate.
Qed.

End HandlerClaims.

(** ** Upload validation: the order of the checks *)

Section Validation.

Variable W : World.
Variable self : FlaskQuestionAnswerApp.t W.

Lemma image_part_exists (request : Request)
    (parts : list (str * FileStorage)) :
  files request = Ok parts ->
  files_contains (lit "image") parts = true ->
  exists f, Spec.image_part request f.
Proof.
  unfold files_contains, Spec.image_part. intros ->.
  induction parts as [|[k g] l IH]; cbn [existsb fst].
  - discriminate.
  - destruct (PyStr.eqb (lit "image") k) eqn:Ek.
    + intros _. apply PyStrFacts.eqb_eq in Ek. subst k.
      exists g, [], l. split; [reflexivity|]. intros g' [].
    + intros H. destruct (IH H) as (f & pre & post & E & Hpre).
      inversion E; subst l.
      exists f, ((k, g) :: pre), post. split; [reflexivity|].
      intros g' [E'|Hin].
      * inversion E'; subst k. rewrite PyStrFacts.eqb_refl in Ek.
        discriminate.
      * exact (Hpre g' Hin).
Qed.

(** A request that parses has an image part or it has none. *)
Lemma image_part_or_none (request : Request)
    (parts : list (str * FileStorage)) :
  files request = Ok parts ->
  Spec.no_image_part request \/ exists f, Spec.image_part request f.
Proof.
  intros Hf. destruct (files_contains (lit "image") parts) eqn:Hc.
  - right. apply (image_part_exists _ Hf Hc).
  - left. exists parts. split; [assumption|].
    intros f Hin. unfold files_contains in Hc.
    assert (existsb (fun kv => PyStr.eqb (lit "image") (fst kv)) parts
            = true) as Hc'.
    { apply existsb_exists. exists (lit "image", f).
      split; [assumption | apply PyStrFacts.eqb_refl]. }
    congruence.
Qed.

(** The handler when [request.files] does not give the parts. *)
Lemma files_raise (request : Request) (e : exn) :
  files request = Raise e ->
  FlaskQuestionAnswerApp.process_question_image self request =
  ([Log ERROR (lit "Question image processing failed: " ++ exc_str e)],
   Ok (Spec.error_body "Internal server error", 500%N)).
Proof.
  intros H. unfold FlaskQuestionAnswerApp.process_question_image,
    request_files. rewrite H. reflexivity.
Qed.

Lemma files_exit (request : Request) (b : base_exn) :
  files request = Exit b ->
  FlaskQuestionAnswerApp.process_question_image self request = ([], Exit b).
Proof.
  intros H. unfold FlaskQuestionAnswerApp.process_question_image,
    request_files. rewrite H. reflexivity.
Qed.

Lemma rejected_no_image (request : Request) :
  Spec.no_image_part request ->
  FlaskQuestionAnswerApp.process_question_image self request =
  ret (Spec.error_body "No image file provided", 400%N).
Proof.
  intros H. destruct (no_image_part_find H) as (parts & Hf & Hc).
  unfold FlaskQuestionAnswerApp.process_question_image.
  rewrite (request_files_ok _ Hf), bind_ret_l, Hc. reflexivity.
Qed.

Lemma rejected_empty_name (request : Request) (f : FileStorage) :
  Spec.image_part request f -> filename f = [] ->
  FlaskQuestionAnswerApp.process_question_image self request =
  ret (Spec.error_body "No selected file", 400%N).
Proof.
  intros Hp Hn. apply image_part_find in Hp as (parts & Hf & Hin & Hget).
  unfold FlaskQuestionAnswerApp.process_question_image.
  rewrite (request_files_ok _ Hf), bind_ret_l, Hin, Hget. cbn [negb]. rewrite bind_ret_l, Hn. reflexivity.
Qed.

Lemma rejected_extension (request : Request) (f : FileStorage) :
  Spec.image_part request f -> filename f <> [] ->
  ~ Spec.extension_allowed W (filename f) ->
  FlaskQuestionAnswerApp.process_question_image self request =
  ret (Spec.error_body "Invalid file type", 400%N).
Proof.
  intros Hp Hn He. apply image_part_find in Hp as (parts & Hf & Hin & Hget).
  unfold FlaskQuestionAnswerApp.process_question_image.
  rewrite (request_files_ok _ Hf), bind_ret_l, Hin, Hget. cbn [negb]. rewrite bind_ret_l.
  rewrite (@filename_nonempty f Hn).
  destruct (allowed_file_total W (filename f)) as [[|] Hb].
  - exfalso. apply He, allowed_file_iff. exact Hb.
  - rewrite Hb, bind_ret_l. reflexivity.
Qed.

Lemma accepted_decodes_first (request : Request) (f : FileStorage) :
  Spec.passes_validation W request f ->
  exists t,
    trace (FlaskQuestionAnswerApp.process_question_image self request)
    = CallImageOpen :: t.
Proof.
  intros (Hp & Hn & He). apply image_part_find in Hp as (parts & Hf & Hin & Hget).
  apply allowed_file_iff in He.
  unfold FlaskQuestionAnswerApp.process_question_image.
  rewrite (request_files_ok _ Hf), bind_ret_l, Hin, Hget. cbn [negb]. rewrite bind_ret_l.
  rewrite (@filename_nonempty f Hn), He, bind_ret_l. cbn [negb].
  unfold call at 1. destruct (Image_open W (stream f)) as [[img|e]|b].
  - rewrite bind_ok.
    match goal with
    | |- context [try_except (_ ++ ?t, ?r) _] =>
        destruct r as [[a|e]|b];
          [rewrite try_except_ok | rewrite try_except_raise
           | rewrite try_except_exit];
        eexists; reflexivity
    end.
  - rewrite bind_raise, try_except_raise. eexists; reflexivity.
  - rewrite bind_exit, try_except_exit. eexists; reflexivity.
Qed.

(** C5, as the code has it.  On a request whose multipart body parses
    ([request.files] gives the parts), the handler checks, in this
    order, that there is a part named image (else 400, "No image file
    provided"), that its file name is not empty (else 400, "No selected
    file") and that its extension is allowed (else 400, "Invalid file
    type").  A rejected request triggers no call at all; an accepted one
    is decoded first, and every call of a service is on an accepted
    request.  When [request.files] raises an [Exception], as it does on a
    body larger than MAX_CONTENT_LENGTH, none of the three answers is
    given: the exception is logged and answered 500. *)
Theorem validation_order (request : Request) :
  (Spec.no_image_part request ->
   FlaskQuestionAnswerApp.process_question_image self request =
   ([], Ok (Spec.error_body "No image file provided", 400%N)))
  /\ (forall f,
        Spec.image_part request f -> filename f = [] ->
        FlaskQuestionAnswerApp.process_question_image self request =
        ([], Ok (Spec.error_body "No selected file", 400%N)))
  /\ (forall f,
        Spec.image_part request f -> filename f <> [] ->
        ~ Spec.extension_allowed W (filename f) ->
        FlaskQuestionAnswerApp.process_question_image self request =
        ([], Ok (Spec.error_body "Invalid file type", 400%N)))
  /\ (forall f,
        Spec.passes_validation W request f ->
        exists t,
          trace (FlaskQuestionAnswerApp.process_question_image self request)
          = CallImageOpen :: t)
  /\ (forall ev,
        In ev (trace (FlaskQuestionAnswerApp.process_question_image
                        self request)) ->
        Spec.is_log ev = false ->
        exists f, Spec.passes_validation W request f)
  /\ (forall e,
        files request = Raise e ->
        FlaskQuestionAnswerApp.process_question_image self request =
        ([Log ERROR (lit "Question image processing failed: "
                     ++ exc_str e)],
         Ok (Spec.error_body "Internal server error", 500%N))).
Proof.
  split; [apply rejected_no_image|].
  split; [apply rejected_empty_name|].
  split; [apply rejected_extension|].
  split; [apply accepted_decodes_first|].
  split; [|apply files_raise].
  intros ev Hev Hlog.
  destruct (files request) as [[parts|e]|b] eqn:Hfiles.
  - destruct (image_part_or_none _ Hfiles) as [Hno | [f Hf]].
    { rewrite (rejected_no_image Hno) in Hev. destruct Hev. }
    exists f. destruct (filename f) as [|c name] eqn:Hn.
    + rewrite (rejected_empty_name Hf Hn) in Hev. destruct Hev.
    + assert (filename f <> []) as Hne by (rewrite Hn; discriminate).
      destruct (allowed_file_total W (filename f)) as [[|] Hb].
      * apply allowed_file_iff in Hb. split; [|split]; assumption.
      * rewrite (rejected_extension Hf Hne) in Hev; [destruct Hev|].
        rewrite <- allowed_file_iff, Hb. discriminate.
  - rewrite (files_raise _ Hfiles) in Hev. destruct Hev as [<-|[]].
    discriminate.
  - rewrite (files_exit _ Hfiles) in Hev. destruct Hev.
Qed.

End Validation.

(** ** [extract_question] catches every [Exception] *)

Section ExtractTotal.

Variable W : World.
Variable self : FlaskQuestionAnswerApp.t W.


End ExtractTotal.

(** ** Start-up *)

Section Startup.

Variable W : World.

Lemma analyzer_init_missing_key (languages : list str) :
  Spec.key_missing W ->
  QuestionOCRAnalyzer.init W languages =
  ([CallReader languages;
    Log ERROR (lit "Initialization failed: "
               ++ exc_str (Spec.init_failure W languages))],
   Raise (Spec.init_failure W languages)).
Proof.
  intros Hk. unfold QuestionOCRAnalyzer.init, Spec.init_failure, call.
  destruct (easyocr_Reader W languages) as [r|e]; [|reflexivity].
  rewrite bind_ok. destruct Hk as [-> | ->]; reflexivity.
Qed.

Lemma main_missing_key :
  Spec.key_missing W ->
  main W =
  match makedirs W (Spec.upload_folder W) with
  | Ok _ =>
      ([CallMakedirs (Spec.upload_folder W);
        CallReader [lit "en"];
        Log ERROR (lit "Initialization failed: "
                   ++ exc_str (Spec.init_failure W [lit "en"]));
        Log CRITICAL (lit "Application startup failed: "
                      ++ exc_str (Spec.init_failure W [lit "en"]))],
       Ok tt)
  | Raise e =>
      ([CallMakedirs (Spec.upload_folder W);
        Log CRITICAL (lit "Application startup failed: " ++ exc_str e)],
       Ok tt)
  end.
Proof.
  intros Hk. unfold main, FlaskQuestionAnswerApp.init, call. cbv zeta.
  fold (Spec.upload_folder W).
  destruct (makedirs W (Spec.upload_folder W)) as [[]|e]; [|reflexivity].
  rewrite bind_ok, (analyzer_init_missing_key _ Hk). reflexivity.
Qed.

Lemma missing_key_never_runs :
  Spec.key_missing W ->
  (forall host port debug, ~ In (CallRun host port debug) (trace (main W)))
  /\ (exists e,
        In (Log CRITICAL (lit "Application startup failed: " ++ exc_str e))
          (trace (main W)))
  /\ outcome (main W) = Ok tt.
Proof.
  intros Hk. rewrite (main_missing_key Hk).
  destruct (makedirs W (Spec.upload_folder W)) as [[]|e];
    cbn [trace outcome fst snd].
  - split; [|split; [eexists; right; right; right; left; reflexivity
                    | reflexivity]].
    intros host port debug H. cbn [In] in H.
    repeat (destruct H as [H|H]; [discriminate|]). exact H.
  - split; [|split; [eexists; right; left; reflexivity | reflexivity]].
    intros host port debug H. cbn [In] in H.
    repeat (destruct H as [H|H]; [discriminate|]). exact H.
Qed.

(** C8. When OPENAI_API_KEY is absent or empty, the initialisation of
    the analyzer raises, the start-up failure is logged at the critical
    level, and the server is never run. *)
Theorem missing_key_stops_startup :
  Spec.key_missing W ->
  (forall languages,
      exists t e, QuestionOCRAnalyzer.init W languages = (t, Raise e))
  /\ (exists e,
        In (Log CRITICAL (lit "Application startup failed: " ++ exc_str e))
          (trace (main W)))
  /\ (forall host port debug, ~ In (CallRun host port debug) (trace (main W)))
  /\ outcome (main W) = Ok tt.
Proof.
  intros Hk. split; [|rewrite (main_missing_key Hk)].
  - intros languages. rewrite (analyzer_init_missing_key _ Hk).
    eexists _, _. reflexivity.
  - destruct (makedirs W (Spec.upload_folder W)) as [[]|e];
      cbn [trace outcome fst snd].
    + split; [eexists; right; right; right; left; reflexivity|].
      split; [|reflexivity].
      intros host port debug H. cbn [In] in H.
      repeat (destruct H as [H|H]; [discriminate|]). exact H.
    + split; [eexists; right; left; reflexivity|].
      split; [|reflexivity].
      intros host port debug H. cbn [In] in H.
      repeat (destruct H as [H|H]; [discriminate|]). exact H.
Qed.

End Startup.

(** ** Concrete requests *)

Section OnExamples.

Variables (key : option str) (ocr : completion (list ocr_result))
  (chat : completion chat_response).

Lemma upload_png_passes :
  Spec.passes_validation (Examples.world key ocr chat)
    (Examples.upload "question.png") (Examples.part "question.png").
Proof.
  split; [|split].
  - exists [], []. split; [reflexivity | intros g []].
  - discriminate.
  - exists (lit "question"), (lit "png"). split; [reflexivity|].
    split; [vm_compute; intuition discriminate | vm_compute; auto].
Qed.

Lemma upload_png_decodes :
  Spec.decodes (Examples.world key ocr chat) (Examples.part "question.png")
    [137; 80; 78; 71]%N.
Proof. eexists. split; reflexivity. Qed.

End OnExamples.

(** C1, as stated, fails: the OCR engine raises on a valid upload and
    the response is 400, not 500. *)
Lemma ocr_exception_is_not_500 :
  exists f arr e,
    Spec.passes_validation Examples.failing_ocr_world
      (Examples.upload "question.png") f /\
    Spec.decodes Examples.failing_ocr_world f arr /\
    readtext Examples.failing_ocr_world tt arr = Raise e /\
    outcome (FlaskQuestionAnswerApp.process_question_image
               (Examples.app Examples.failing_ocr_world tt)
               (Examples.upload "question.png"))
    = Ok (Spec.no_question_body, 400%N) /\
    outcome (FlaskQuestionAnswerApp.process_question_image
               (Examples.app Examples.failing_ocr_world tt)
               (Examples.upload "question.png"))
    <> Ok (Spec.error_body "Internal server error", 500%N).
Proof.
  exists (Examples.part "question.png"), [137; 80; 78; 71]%N,
    Examples.engine_error.
  split; [apply upload_png_passes|].
  split; [apply upload_png_decodes|].
  split; [reflexivity|].
  assert (outcome (FlaskQuestionAnswerApp.process_question_image
               (Examples.app Examples.failing_ocr_world tt)
               (Examples.upload "question.png"))
          = Ok (Spec.no_question_body, 400%N)) as E
    by (vm_compute; reflexivity).
  split; [exact E|]. rewrite E. intros H. inversion H.
Qed.

(** C5, as stated, fails: on a body larger than MAX_CONTENT_LENGTH the
    access to [request.files] raises, the response is none of the three
    400 answers of upload validation, and the image is not decoded. *)
Lemma oversized_request_gets_500 :
  FlaskQuestionAnswerApp.process_question_image
    (Examples.app (Examples.working_world "What is this?") tt)
    Examples.oversized_upload
  = ([Log ERROR
        (lit "Question image processing failed: 413 Request Entity Too Large: The data value transmitted exceeds the capacity limit.")],
     Ok (Spec.error_body "Internal server error", 500%N))
  /\ (forall msg,
        outcome (FlaskQuestionAnswerApp.process_question_image
                   (Examples.app (Examples.working_world "What is this?") tt)
                   Examples.oversized_upload)
        <> Ok (Spec.error_body msg, 400%N))
  /\ (In CallImageOpen
        (trace (FlaskQuestionAnswerApp.process_question_image
                  (Examples.app (Examples.working_world "What is this?") tt)
                  Examples.oversized_upload)) -> False).
Proof.
  assert (FlaskQuestionAnswerApp.process_question_image
            (Examples.app (Examples.working_world "What is this?") tt)
            Examples.oversized_upload
          = ([Log ERROR
                (lit "Question image processing failed: 413 Request Entity Too Large: The data value transmitted exceeds the capacity limit.")],
             Ok (Spec.error_body "Internal server error", 500%N))) as E
    by (vm_compute; reflexivity).
  rewrite E. split; [reflexivity|]. split.
  - intros msg H. inversion H.
  - intros [H|[]]. discriminate.
Qed.


Lemma ocr_exception_gives_400_witness :
  FlaskQuestionAnswerApp.process_question_image
    (Examples.app Examples.failing_ocr_world tt)
    (Examples.upload "question.png")
  = ([CallImageOpen; CallNpArray; CallReadtext;
      Log ERROR (lit "Question extraction failed: CUDA out of memory")],
     Ok (Spec.no_question_body, 400%N)).
Proof.
  apply (@ocr_exception_gives_400 Examples.failing_ocr_world
           (Examples.app Examples.failing_ocr_world tt)
           (Examples.upload "question.png") (Examples.part "question.png")
           [137; 80; 78; 71]%N Examples.engine_error).
  - apply upload_png_passes.
  - apply upload_png_decodes.
  - reflexivity.
Defined.

Lemma chat_failure_is_an_answer_witness :
  outcome (FlaskQuestionAnswerApp.process_question_image
             (Examples.app
                (Examples.failing_chat_world "How many moons does Mars have?")
                tt)
             (Examples.upload "question.png"))
  = Ok (Spec.answer_body (lit "How many moons does Mars have?")
          (lit "Sorry, I couldn't generate an answer. Error: Connection refused"),
        200%N).
Proof.
  apply (proj2 (@chat_failure_is_an_answer
                  (Examples.failing_chat_world "How many moons does Mars have?")
                  (Examples.app
                     (Examples.failing_chat_world
                        "How many moons does Mars have?") tt)
                  (lit "How many moons does Mars have?")
                  Examples.api_error eq_refl)
           (Examples.upload "question.png") (Examples.part "question.png")
           [137; 80; 78; 71]%N).
  - apply upload_png_passes.
  - apply upload_png_decodes.
  - vm_compute. reflexivity.
  - discriminate.
Defined.

Lemma no_question_gives_400_witness :
  outcome (FlaskQuestionAnswerApp.process_question_image
             (Examples.app (Examples.working_world "Hello world") tt)
             (Examples.upload "question.png"))
  = Ok (Spec.no_question_body, 400%N)
  /\ forall req,
      ~ In (CallChatCompletion req)
          (trace (FlaskQuestionAnswerApp.process_question_image
                    (Examples.app (Examples.working_world "Hello world") tt)
                    (Examples.upload "question.png"))).
Proof.
  apply (@no_question_gives_400 (Examples.working_world "Hello world")
           (Examples.app (Examples.working_world "Hello world") tt)
           (Examples.upload "question.png") (Examples.part "question.png")
           [137; 80; 78; 71]%N).
  - apply upload_png_passes.
  - apply upload_png_decodes.
  - vm_compute. reflexivity.
Defined.

Lemma missing_key_stops_startup_witness :
  Spec.key_missing Examples.keyless_world /\
  trace (main Examples.keyless_world) =
  [CallMakedirs (lit "./uploads");
   CallReader [lit "en"];
   Log ERROR (lit "Initialization failed: OpenAI API key is required");
   Log CRITICAL (lit "Application startup failed: OpenAI API key is required")]
  /\ outcome (main Examples.keyless_world) = Ok tt.
Proof.
  split; [left; reflexivity|]. split; [vm_compute; reflexivity|].
  apply (@missing_key_stops_startup Examples.keyless_world).
  left. reflexivity.
Defined.

(** Scenario C of the specification: a question is answered. *)
Example scenario_answered :
  outcome (FlaskQuestionAnswerApp.process_question_image
             (Examples.app
                (Examples.working_world "How many moons does Mars have?") tt)
             (Examples.upload "mars.JPEG"))
  = Ok (Spec.answer_body (lit "How many moons does Mars have?")
          (lit "Mars has two moons."), 200%N).
Proof. vm_compute. reflexivity. Qed.

(** Scenario A: no image part. *)
Example scenario_no_image :
  FlaskQuestionAnswerApp.process_question_image
    (Examples.app (Examples.working_world "How old is the Sun?") tt)
    (mk_Request (Ok [(lit "file", Examples.part "sun.png")]))
  = ([], Ok (Spec.error_body "No image file provided", 400%N)).
Proof. vm_compute. reflexivity. Qed.

(** A failure to decode the image is what the handler answers 500 to. *)
Example scenario_decode_failure :
  let W := mk_World (Reader := unit) (fun s => s) (fun _ => None)
             (fun _ => Ok tt) (fun _ (_ : list N) => Ok [])
             (fun _ => @Raise (list N)
                         (mk_exn (lit "UnidentifiedImageError")
                            (lit "cannot identify image file")))
             (fun im => Ok im)
             (fun _ => Ok Examples.valid_response)
             (fun _ => Ok tt) (fun _ _ _ => Ok tt) in
  outcome (FlaskQuestionAnswerApp.process_question_image
             (Examples.app W tt) (Examples.upload "broken.png"))
  = Ok (Spec.error_body "Internal server error", 500%N).
Proof. vm_compute. reflexivity. Qed.

(** * Further properties of the code *)

(** ** What the two adapters do *)

Section Adapters.

Variable W : World.
Variable self : QuestionOCRAnalyzer.t W.

Lemma extract_question_shape (arr : ndarray W) :
  (exists b,
      readtext W (QuestionOCRAnalyzer.reader self) arr = Exit b /\
      QuestionOCRAnalyzer.extract_question self arr
      = ([CallReadtext], Exit b))
  \/ (exists s logs,
        QuestionOCRAnalyzer.extract_question self arr
        = (CallReadtext :: logs, Ok s) /\
        Spec.at_most_one_error logs /\
        (s = [] \/
         exists results,
           readtext W (QuestionOCRAnalyzer.reader self) arr = Ok results /\
           s = QuestionOCRAnalyzer.full_text_of results /\
           Spec.is_question W s /\ logs = [])).
Proof.
  destruct (readtext W (QuestionOCRAnalyzer.reader self) arr)
    as [[results|e]|b] eqn:R.
  - right. rewrite (extract_question_ok _ _ R). eexists _, _.
    split; [reflexivity|]. split; [left; reflexivity|].
    unfold QuestionOCRAnalyzer.question_heuristic.
    destruct (QuestionOCRAnalyzer.is_likely_question W _) eqn:Hl.
    + right. exists results. repeat split.
      apply is_likely_question_iff. exact Hl.
    + left. reflexivity.
  - right. rewrite (extract_question_raise _ _ R). eexists _, _.
    split; [reflexivity|]. split; [right; eexists; reflexivity|].
    left. reflexivity.
  - left. exists b. split; [reflexivity|].
    unfold QuestionOCRAnalyzer.extract_question, call. rewrite R.
    reflexivity.
Qed.

Lemma answer_question_shape (question : str) :
  (exists b,
      ChatCompletion_create W
        (QuestionOCRAnalyzer.completion_request question) = Exit b /\
      QuestionOCRAnalyzer.answer_question self question
      = ([CallChatCompletion
            (QuestionOCRAnalyzer.completion_request question)], Exit b))
  \/ (exists a logs,
        QuestionOCRAnalyzer.answer_question self question
        = (CallChatCompletion
             (QuestionOCRAnalyzer.completion_request question) :: logs,
           Ok a) /\
        Spec.at_most_one_error logs).
Proof.
  destruct (ChatCompletion_create W
              (QuestionOCRAnalyzer.completion_request question))
    as [[[[|c cs]]|e]|b] eqn:H;
    unfold QuestionOCRAnalyzer.answer_question, call; cbv zeta; rewrite H.
  - right. eexists _, _. split; [reflexivity|]. right. eexists. reflexivity.
  - right. eexists _, _. split; [reflexivity|]. left. reflexivity.
  - right. eexists _, _. split; [reflexivity|]. right. eexists. reflexivity.
  - left. exists b. split; reflexivity.
Qed.

(** X9. the first completion is the answer.  When the chat API returns at
    least one choice, [answer_question] returns the text of the first one,
    after one call with the fixed system prompt and the question as the
    user's message, and logs nothing. *)
Theorem answer_is_first_choice (question : str) (c : chat_choice)
    (cs : list chat_choice) :
  ChatCompletion_create W (QuestionOCRAnalyzer.completion_request question)
  = Ok (mk_chat_response (c :: cs)) ->
  QuestionOCRAnalyzer.answer_question self question =
  ([CallChatCompletion
      (mk_chat_request (lit "gpt-4o-mini")
         [(lit "system", QuestionOCRAnalyzer.system_prompt);
          (lit "user", question)]
         300%N (7 # 10)%Q)],
   Ok (choice_content c)).
Proof.
  intros H. unfold QuestionOCRAnalyzer.answer_question, call. cbv zeta.
  rewrite H. reflexivity.
Qed.

(** X10. a response without choices.  When the chat API returns no choice
    at all, taking the first one fails inside [answer_question]; the
    failure is caught, logged, and the answer is the apology followed by
    the message of the index error. *)
Theorem answer_without_choices (question : str) :
  ChatCompletion_create W (QuestionOCRAnalyzer.completion_request question)
  = Ok (mk_chat_response []) ->
  QuestionOCRAnalyzer.answer_question self question =
  ([CallChatCompletion (QuestionOCRAnalyzer.completion_request question);
    Log ERROR (lit "Question answering failed: list index out of range")],
   Ok (lit "Sorry, I couldn't generate an answer. Error: list index out of range")).
Proof.
  intros H. unfold QuestionOCRAnalyzer.answer_question, call. cbv zeta.
  rewrite H. reflexivity.
Qed.

(** X11. [answer_question] catches every [Exception].  The adapter
    never ends with an instance of [Exception]: it returns a string
    after exactly one call of the API, with the request built from the
    question, and at most one logged error.  The one way for it not to
    return is an exception of the API call that is not an [Exception]
    ([SystemExit], [KeyboardInterrupt]), which goes through unlogged. *)
Theorem answer_question_catches_exceptions (question : str) :
  (forall e,
      outcome (QuestionOCRAnalyzer.answer_question self question)
      <> Raise e)
  /\ ((exists a logs,
         QuestionOCRAnalyzer.answer_question self question
         = (CallChatCompletion
              (QuestionOCRAnalyzer.completion_request question) :: logs,
            Ok a) /\
         Spec.at_most_one_error logs)
      \/ (exists b,
            ChatCompletion_create W
              (QuestionOCRAnalyzer.completion_request question) = Exit b /\
            QuestionOCRAnalyzer.answer_question self question
            = ([CallChatCompletion
                  (QuestionOCRAnalyzer.completion_request question)],
               Exit b)))
  /\ Spec.count Spec.is_chat_call
       (trace (QuestionOCRAnalyzer.answer_question self question)) = 1.
Proof.
  destruct (answer_question_shape question)
    as [(b & Hb & E) | (a & logs & E & Hl)]; rewrite E.
  - split; [intros e; discriminate|].
    split; [right; exists b; split; [assumption | reflexivity]|].
    reflexivity.
  - split; [intros e; discriminate|].
    split; [left; exists a, logs; split; [reflexivity | assumption]|].
    destruct Hl as [-> | [msg ->]]; reflexivity.
Qed.

(** X12. a non-empty result of [extract_question] is the whole OCR text.
    When [extract_question] returns a non-empty string, the OCR engine
    did return, the string is the newline-joined text of all its triples,
    that text is a question, and nothing was logged. *)
Theorem extracted_question_is_ocr_text (arr : ndarray W) (s : str) :
  outcome (QuestionOCRAnalyzer.extract_question self arr) = Ok s ->
  s <> [] ->
  exists results,
    readtext W (QuestionOCRAnalyzer.reader self) arr = Ok results /\
    s = Spec.lines (map ocr_text results) /\
    Spec.is_question W s /\
    trace (QuestionOCRAnalyzer.extract_question self arr) = [CallReadtext].
Proof.
  intros Ho Hs.
  destruct (extract_question_shape arr)
    as [(b & _ & E) | (s' & logs & E & _ & Hc)];
    rewrite E in Ho |- *; cbn [outcome snd] in Ho; [discriminate|].
  inversion Ho; subst s'.
  destruct Hc as [-> | (results & R & Es & Hq & ->)]; [congruence|].
  exists results. split; [assumption|]. split; [|split].
  - rewrite Es. apply join_lines.
  - assumption.
  - reflexivity.
Qed.

End Adapters.

(** ** The handler on every request *)

Section HandlerPaths.

Variable W : World.
Variable self : FlaskQuestionAnswerApp.t W.

(** The handler on a validated request, up to the decoding. *)
Lemma handler_decoding (request : Request) (f : FileStorage) :
  Spec.passes_validation W request f ->
  FlaskQuestionAnswerApp.process_question_image self request =
  try_except
    (image_data <- call CallImageOpen (Image_open W (stream f)) ;;
     image_array <- call CallNpArray (np_array W image_data) ;;
     extracted_question <-
       QuestionOCRAnalyzer.extract_question
         (FlaskQuestionAnswerApp.question_analyzer self) image_array ;;
     if negb (PyStr.truthy extracted_question)
     then ret (Spec.no_question_body, 400%N)
     else
       answer <-
         QuestionOCRAnalyzer.answer_question
           (FlaskQuestionAnswerApp.question_analyzer self)
           extracted_question ;;
       ret (Spec.answer_body extracted_question answer, 200%N))
    (fun e =>
       log ERROR (lit "Question image processing failed: " ++ exc_str e) ;;;
       ret (Spec.error_body "Internal server error", 500%N)).
Proof.
  intros (Hpart & Hname & Hext).
  apply image_part_find in Hpart as (parts & Hf & Hin & Hget).
  apply allowed_file_iff in Hext.
  unfold FlaskQuestionAnswerApp.process_question_image.
  rewrite (request_files_ok _ Hf), bind_ret_l, Hin, Hget. cbn [negb].
  rewrite bind_ret_l.
  rewrite (@filename_nonempty f Hname), Hext, bind_ret_l. cbn [negb].
  reflexivity.
Qed.

(** The handler when the image does not decode. *)
Lemma handler_decode_fails (request : Request) (f : FileStorage) (e : exn)
    (t : list event) :
  Spec.passes_validation W request f -> Spec.decode_fails W f e t ->
  FlaskQuestionAnswerApp.process_question_image self request =
  (t ++ [Log ERROR (lit "Question image processing failed: " ++ exc_str e)],
   Ok (Spec.error_body "Internal server error", 500%N)).
Proof.
  intros Hv Hd. rewrite (handler_decoding Hv). unfold call.
  destruct Hd as [[Ho ->] | (img & Ho & Ha & ->)]; rewrite Ho.
  - rewrite bind_raise, try_except_raise. reflexivity.
  - rewrite bind_ok, Ha, bind_raise. cbn [trace outcome fst snd app].
    rewrite try_except_raise. reflexivity.
Qed.

Lemma handler_decode_exits (request : Request) (f : FileStorage)
    (b : base_exn) (t : list event) :
  Spec.passes_validation W request f -> Spec.decode_exits W f b t ->
  FlaskQuestionAnswerApp.process_question_image self request = (t, Exit b).
Proof.
  intros Hv Hd. rewrite (handler_decoding Hv). unfold call.
  destruct Hd as [[Ho ->] | (img & Ho & Ha & ->)]; rewrite Ho.
  - reflexivity.
  - rewrite bind_ok, Ha, bind_exit. reflexivity.
Qed.

Lemma handler_extract_exits (request : Request) (f : FileStorage)
    (arr : ndarray W) (t : list event) (b : base_exn) :
  Spec.passes_validation W request f -> Spec.decodes W f arr ->
  QuestionOCRAnalyzer.extract_question
    (FlaskQuestionAnswerApp.question_analyzer self) arr = (t, Exit b) ->
  FlaskQuestionAnswerApp.process_question_image self request =
  ([CallImageOpen; CallNpArray] ++ t, Exit b).
Proof.
  intros Hv Hd He. rewrite (handler_validated self Hv Hd).
  rewrite bind_ok, He, bind_exit. reflexivity.
Qed.

Lemma handler_answer_exits (request : Request) (f : FileStorage)
    (arr : ndarray W) (t t' : list event) (q : str) (b : base_exn) :
  Spec.passes_validation W request f -> Spec.decodes W f arr ->
  QuestionOCRAnalyzer.extract_question
    (FlaskQuestionAnswerApp.question_analyzer self) arr = (t, Ok q) ->
  q <> [] ->
  QuestionOCRAnalyzer.answer_question
    (FlaskQuestionAnswerApp.question_analyzer self) q = (t', Exit b) ->
  FlaskQuestionAnswerApp.process_question_image self request =
  ([CallImageOpen; CallNpArray] ++ t ++ t', Exit b).
Proof.
  intros Hv Hd He Hq Ha. rewrite (handler_validated self Hv Hd).
  rewrite bind_ok, He, bind_ok.
  destruct q as [|c q]; [congruence|]. cbn [PyStr.truthy negb].
  rewrite Ha, bind_exit. reflexivity.
Qed.

(** An image decodes, or the decoding ends with an exception. *)
Lemma decoding_cases (f : FileStorage) :
  (exists arr, Spec.decodes W f arr) \/
  (exists e t, Spec.decode_fails W f e t) \/
  (exists b t, Spec.decode_exits W f b t).
Proof.
  unfold Spec.decodes, Spec.decode_fails, Spec.decode_exits.
  destruct (Image_open W (stream f)) as [[img|e]|b] eqn:Ho.
  - destruct (np_array W img) as [[arr|e]|b] eqn:Ha.
    + left. exists arr, img. split; [reflexivity | assumption].
    + right; left. exists e, [CallImageOpen; CallNpArray]. right.
      exists img. repeat split; assumption.
    + right; right. exists b, [CallImageOpen; CallNpArray]. right.
      exists img. repeat split; assumption.
  - right; left. exists e, [CallImageOpen]. left. split; reflexivity.
  - right; right. exists b, [CallImageOpen]. left. split; reflexivity.
Qed.

(** Every run of the handler follows one of the paths. *)
Lemma handler_cases (request : Request) :
  Spec.handler_path self request
    (FlaskQuestionAnswerApp.process_question_image self request).
Proof.
  destruct (files request) as [[parts|e]|b] eqn:Hfiles.
  2:{ rewrite (files_raise self _ Hfiles). apply Spec.path_files_raise.
      assumption. }
  2:{ rewrite (files_exit self _ Hfiles). apply Spec.path_files_exit.
      assumption. }
  destruct (image_part_or_none _ Hfiles) as [Hno | [f Hf]].
  { rewrite (rejected_no_image self Hno). apply Spec.path_no_image.
    assumption. }
  destruct (filename f) as [|c name] eqn:Hn.
  { rewrite (rejected_empty_name self Hf Hn).
    apply (Spec.path_empty_name self Hf Hn). }
  assert (filename f <> []) as Hne by (rewrite Hn; discriminate).
  destruct (allowed_file_total W (filename f)) as [[|] Hb].
  2:{ assert (~ Spec.extension_allowed W (filename f)) as Hx
        by (rewrite <- allowed_file_iff, Hb; discriminate).
      rewrite (rejected_extension self Hf Hne Hx).
      apply (Spec.path_extension self Hf Hne Hx). }
  apply allowed_file_iff in Hb.
  assert (Spec.passes_validation W request f) as Hv
    by (split; [|split]; assumption).
  destruct (decoding_cases f)
    as [[arr Hd] | [(e & t & Hd) | (b & t & Hd)]].
  2:{ rewrite (handler_decode_fails Hv Hd).
      apply (Spec.path_decode_raise self Hv Hd). }
  2:{ rewrite (handler_decode_exits Hv Hd).
      apply (Spec.path_decode_exit self Hv Hd). }
  destruct (extract_question_shape
              (FlaskQuestionAnswerApp.question_analyzer self) arr)
    as [(b & Hb' & Ex) | (q & logs & Ex & Hl & Hc)].
  { rewrite (handler_extract_exits Hv Hd Ex).
    apply (Spec.path_ocr_exit self Hv Hd Hb'). }
  destruct Hc as [-> | (results & Hr & Eq & Hq & ->)].
  { rewrite (handler_no_question self Hv Hd Ex).
    apply (Spec.path_no_question self Hv Hd Ex Hl). }
  assert (q <> []) as Hqne.
  { intros E. rewrite E in Hq. exact (empty_not_question Hq). }
  destruct (answer_question_shape
              (FlaskQuestionAnswerApp.question_analyzer self) q)
    as [(b & Hb' & Ea) | (a & logs & Ea & Hl')].
  - rewrite (handler_answer_exits Hv Hd Ex Hqne Ea).
    apply (Spec.path_chat_exit self Hv Hd Ex Hqne Hq Hb').
  - rewrite (handler_question self Hv Hd Ex Hqne Ea).
    apply (Spec.path_answer self Hv Hd Ex Hqne Hq Ea Hl').
Qed.

End HandlerPaths.

(** ** The handler: every response *)

Ltac no_such_event H :=
  cbn [app In] in H;
  repeat (destruct H as [H|H]; [discriminate|]); destruct H.

Section HandlerExtras.

Variable W : World.
Variable self : FlaskQuestionAnswerApp.t W.


(** X2. an image that does not decode.  On a request that passes upload
    validation, an exception of [Image.open] or of [np.array] is logged
    with its message and answered 500 with the fixed body
    "Internal server error"; neither the OCR engine nor the chat API is
    called. *)
Theorem decode_failure_gives_500 (request : Request) (f : FileStorage)
    (e : exn) (t : list event) :
  Spec.passes_validation W request f -> Spec.decode_fails W f e t ->
  FlaskQuestionAnswerApp.process_question_image self request =
  (t ++ [Log ERROR (lit "Question image processing failed: " ++ exc_str e)],
   Ok (Spec.error_body "Internal server error", 500%N))
  /\ Spec.count Spec.is_ocr_call
       (trace (FlaskQuestionAnswerApp.process_question_image self request)) = 0
  /\ Spec.count Spec.is_chat_call
       (trace (FlaskQuestionAnswerApp.process_question_image self request)) = 0.
Proof.
  intros Hv Hd. rewrite (handler_decode_fails self Hv Hd).
  split; [reflexivity|].
  destruct Hd as [[_ ->] | (img & _ & _ & ->)]; split; reflexivity.
Qed.

(** X3. a question is answered.  On a request that passes validation and
    decodes, when the OCR text is a question and the chat API returns at
    least one choice, the handler decodes, runs the OCR, calls the chat
    API once and responds 200 with the whole OCR text as
    extracted_question and the first choice as answer, logging nothing. *)
Theorem question_is_answered (request : Request) (f : FileStorage)
    (arr : ndarray W) (results : list ocr_result) (c : chat_choice)
    (cs : list chat_choice) :
  Spec.passes_validation W request f -> Spec.decodes W f arr ->
  readtext W
    (QuestionOCRAnalyzer.reader
       (FlaskQuestionAnswerApp.question_analyzer self)) arr = Ok results ->
  Spec.is_question W (Spec.lines (map ocr_text results)) ->
  ChatCompletion_create W
    (QuestionOCRAnalyzer.completion_request
       (Spec.lines (map ocr_text results)))
  = Ok (mk_chat_response (c :: cs)) ->
  FlaskQuestionAnswerApp.process_question_image self request =
  ([CallImageOpen; CallNpArray; CallReadtext;
    CallChatCompletion
      (QuestionOCRAnalyzer.completion_request
         (Spec.lines (map ocr_text results)))],
   Ok (Spec.answer_body (Spec.lines (map ocr_text results))
         (choice_content c), 200%N)).
Proof.
  intros Hv Hd Hr Hq Hc.
  pose proof (extract_question_ok _ _ Hr) as Hx.
  unfold QuestionOCRAnalyzer.full_text_of in Hx. rewrite join_lines in Hx.
  unfold QuestionOCRAnalyzer.question_heuristic in Hx.
  rewrite (proj2 (is_likely_question_iff W _) Hq) in Hx.
  assert (Spec.lines (map ocr_text results) <> []) as Hne.
  { intros E. rewrite E in Hq. exact (empty_not_question Hq). }
  rewrite (handler_question self Hv Hd Hx Hne
             (answer_is_first_choice _ _ Hc)).
  reflexivity.
Qed.

(** X4. what a 200 means.  When the handler responds 200, the request
    passed upload validation, the body holds a non-empty text that the
    heuristic classifies as a question, with its answer, and the chat API
    was called exactly once. *)
Theorem ok_means_question_answered (request : Request)
    (body : list (str * str)) :
  outcome (FlaskQuestionAnswerApp.process_question_image self request)
  = Ok (body, 200%N) ->
  exists f q a,
    Spec.passes_validation W request f /\
    Spec.is_question W q /\ q <> [] /\
    body = Spec.answer_body q a /\
    Spec.count Spec.is_chat_call
      (trace (FlaskQuestionAnswerApp.process_question_image self request)) = 1.
Proof.
  intros H.
  destruct (handler_cases self request); cbn [outcome snd] in H;
    try discriminate.
  inversion H; subst body. exists f, q, a.
  split; [assumption|]. split; [assumption|]. split; [assumption|].
  split; [reflexivity|].
  match goal with
  | Hl : Spec.at_most_one_error _ |- _ =>
      destruct Hl as [-> | [msg ->]]; reflexivity
  end.
Qed.

(** X5. what a 500 means.  The handler responds 500 only when
    [request.files] raised an [Exception], as on a body larger than
    MAX_CONTENT_LENGTH, or when the request passed upload validation and
    its image did not decode; the body is then the fixed
    "Internal server error".  A failure of the OCR engine or of the chat
    API never gives a 500. *)
Theorem server_error_causes (request : Request) (body : list (str * str)) :
  outcome (FlaskQuestionAnswerApp.process_question_image self request)
  = Ok (body, 500%N) ->
  body = Spec.error_body "Internal server error" /\
  ((exists e, files request = Raise e)
   \/ exists f e t,
       Spec.passes_validation W request f /\ Spec.decode_fails W f e t).
Proof.
  intros H.
  destruct (handler_cases self request); cbn [outcome snd] in H;
    try discriminate; inversion H; subst body; (split; [reflexivity|]).
  - left. eexists. eassumption.
  - right. eexists _, _, _. split; eassumption.
Qed.

(** X6. one call of each service at most.  On every request the handler
    opens the image at most once, runs the OCR at most once and calls the
    chat API at most once; a call of the chat API carries the request
    built from a text that the heuristic classifies as a question. *)
Theorem at_most_one_call_each (request : Request) :
  Spec.count Spec.is_decode_call
    (trace (FlaskQuestionAnswerApp.process_question_image self request)) <= 1
  /\ Spec.count Spec.is_ocr_call
       (trace (FlaskQuestionAnswerApp.process_question_image self request)) <= 1
  /\ Spec.count Spec.is_chat_call
       (trace (FlaskQuestionAnswerApp.process_question_image self request)) <= 1
  /\ (forall req,
        In (CallChatCompletion req)
          (trace (FlaskQuestionAnswerApp.process_question_image
                    self request)) ->
        exists q,
          Spec.is_question W q /\
          req = QuestionOCRAnalyzer.completion_request q).
Proof.
  destruct (handler_cases self request); cbn [trace fst];
    repeat match goal with
           | H : Spec.decode_fails _ _ _ _ |- _ =>
               destruct H as [[_ ->] | (img & _ & _ & ->)]
           | H : Spec.decode_exits _ _ _ _ |- _ =>
               destruct H as [[_ ->] | (img & _ & _ & ->)]
           | H : Spec.at_most_one_error _ |- _ =>
               destruct H as [-> | [msg ->]]
           end;
    (split; [cbn; lia|]); (split; [cbn; lia|]); (split; [cbn; lia|]);
    intros req Hin; cbn [app In] in Hin;
    repeat (destruct Hin as [Hin|Hin]; [try discriminate|]);
    try (exfalso; exact Hin);
    exists q; (split; [assumption | congruence]).
Qed.

(** X7. the first part named image is the one used.  When
    [request.files] gives the parts, the handler behaves as on a request
    whose parts are the first part named image alone: the parts before
    it and after it, further parts named image included, play no part.
    (A request that Flask refuses to parse, for its size or the number of
    its parts, is not in the scope of this statement.) *)
Theorem first_image_part_counts (request : Request) (f : FileStorage) :
  Spec.image_part request f ->
  FlaskQuestionAnswerApp.process_question_image self request =
  FlaskQuestionAnswerApp.process_question_image self
    (mk_Request (Ok [(lit "image", f)])).
Proof.
  intros Hp.
  assert (Spec.image_part (mk_Request (Ok [(lit "image", f)])) f) as Hp'.
  { exists [], []. split; [reflexivity | intros g []]. }
  apply image_part_find in Hp as (parts & Hf & Hin & Hget).
  apply image_part_find in Hp' as (parts' & Hf' & Hin' & Hget').
  unfold FlaskQuestionAnswerApp.process_question_image.
  rewrite (request_files_ok _ Hf), (request_files_ok _ Hf'), !bind_ret_l.
  rewrite Hin, Hget, Hin', Hget'. reflexivity.
Qed.

End HandlerExtras.

(** ** Start-up, path by path *)

Section StartupExtras.

Variable W : World.

Lemma key_present_not_missing (key : str) :
  Spec.key_present W key -> ~ Spec.key_missing W.
Proof.
  intros [Hk Hne] [Hm | Hm]; rewrite Hk in Hm; [discriminate|].
  inversion Hm. contradiction.
Qed.

Lemma key_present_or_missing :
  Spec.key_missing W \/ exists key, Spec.key_present W key.
Proof.
  unfold Spec.key_missing, Spec.key_present.
  destruct (getenv W (lit "OPENAI_API_KEY")) as [[|c key]|].
  - left. right. reflexivity.
  - right. exists (c :: key). split; [reflexivity | discriminate].
  - left. left. reflexivity.
Qed.

(** X14. the analyzer is built.  With a non-empty API key in the
    environment and an OCR engine that can be constructed, the
    constructor builds the engine for the given languages, keeps it
    with the key, and logs nothing. *)
Theorem analyzer_init_succeeds (languages : list str) (key : str)
    (r : Reader W) :
  Spec.key_present W key -> easyocr_Reader W languages = Ok r ->
  QuestionOCRAnalyzer.init W languages =
  ([CallReader languages], Ok (QuestionOCRAnalyzer.mk W r key)).
Proof.
  intros [Hk Hne] Hr. unfold QuestionOCRAnalyzer.init, call.
  rewrite Hr, bind_ok, Hk.
  destruct key as [|c key]; [congruence | reflexivity].
Qed.

(** X15. the OCR engine cannot be built.  When the construction of the
    engine raises, the constructor logs the message and raises the same
    exception again, whether the API key is there or not; the key is
    never looked at. *)
Theorem analyzer_init_engine_failure (languages : list str) (e : exn) :
  easyocr_Reader W languages = Raise e ->
  QuestionOCRAnalyzer.init W languages =
  ([CallReader languages;
    Log ERROR (lit "Initialization failed: " ++ exc_str e)],
   Raise e).
Proof.
  intros Hr. unfold QuestionOCRAnalyzer.init, call. rewrite Hr. reflexivity.
Qed.

(** X16. the application object.  When the upload directory can be
    created, the engine built and the key is there, the constructor
    creates the directory, then builds the analyzer, then gives the
    handler to [app.route('/answer-question', methods=['POST'])]; the
    application has a body limit of 16 MiB (16777216 bytes) and the upload
    directory of the environment (./uploads by default). *)
Theorem app_init_succeeds (key : str) (r : Reader W) :
  makedirs W (Spec.upload_folder W) = Ok tt ->
  Spec.key_present W key -> easyocr_Reader W [lit "en"] = Ok r ->
  FlaskQuestionAnswerApp.init W =
  ([CallMakedirs (Spec.upload_folder W); CallReader [lit "en"];
    CallRoute (lit "/answer-question") [lit "POST"]],
   Ok (FlaskQuestionAnswerApp.mk 16777216%N (Spec.upload_folder W)
         (QuestionOCRAnalyzer.mk W r key))).
Proof.
  intros Hm Hk Hr. unfold FlaskQuestionAnswerApp.init, call. cbv zeta.
  fold (Spec.upload_folder W).
  rewrite Hm, bind_ok, (analyzer_init_succeeds _ Hk Hr), bind_ok.
  reflexivity.
Qed.

(** X17. the upload directory cannot be created.  When [os.makedirs]
    raises, the constructor of the application raises the same exception
    and the OCR engine is not built. *)
Theorem app_init_makedirs_failure (e : exn) :
  makedirs W (Spec.upload_folder W) = Raise e ->
  FlaskQuestionAnswerApp.init W =
  ([CallMakedirs (Spec.upload_folder W)], Raise e).
Proof.
  intros Hm. unfold FlaskQuestionAnswerApp.init, call. cbv zeta.
  fold (Spec.upload_folder W). rewrite Hm. reflexivity.
Qed.

(** [main] on a world with the key. *)
Lemma main_with_key (key : str) :
  Spec.key_present W key ->
  main W =
  match makedirs W (Spec.upload_folder W) with
  | Raise e =>
      ([CallMakedirs (Spec.upload_folder W);
        Log CRITICAL (lit "Application startup failed: " ++ exc_str e)],
       Ok tt)
  | Ok _ =>
      match easyocr_Reader W [lit "en"] with
      | Raise e =>
          ([CallMakedirs (Spec.upload_folder W);
            CallReader [lit "en"];
            Log ERROR (lit "Initialization failed: " ++ exc_str e);
            Log CRITICAL (lit "Application startup failed: " ++ exc_str e)],
           Ok tt)
      | Ok _ =>
          ([CallMakedirs (Spec.upload_folder W);
            CallReader [lit "en"];
            CallRoute (lit "/answer-question") [lit "POST"];
            Log INFO (lit "Question Answering OCR Application initialized successfully");
            CallRun (lit "0.0.0.0") 5000%N true]
           ++ match app_run W (lit "0.0.0.0") 5000%N true with
              | Done (Raise e) =>
                  [Log CRITICAL
                     (lit "Application startup failed: " ++ exc_str e)]
              | _ => []
              end,
           match app_run W (lit "0.0.0.0") 5000%N true with
           | Exit b => Exit b
           | _ => Ok tt
           end)
      end
  end.
Proof.
  intros Hk. unfold main.
  destruct (makedirs W (Spec.upload_folder W)) as [[]|e] eqn:Hm.
  2:{ rewrite (app_init_makedirs_failure Hm). reflexivity. }
  destruct (easyocr_Reader W [lit "en"]) as [r|e] eqn:Hr.
  - rewrite (app_init_succeeds Hm Hk Hr), bind_ok.
    unfold FlaskQuestionAnswerApp.run, call, log.
    rewrite bind_ok.
    destruct (app_run W (lit "0.0.0.0") 5000%N true) as [[[]|e]|b];
      reflexivity.
  - unfold FlaskQuestionAnswerApp.init, call. cbv zeta.
    fold (Spec.upload_folder W).
    rewrite Hm, bind_ok, (analyzer_init_engine_failure _ Hr). reflexivity.
Qed.

(** X18. a healthy start.  With the key, the engine and the upload
    directory in order, [main] creates the directory, builds the engine
    for English, registers the route, logs the successful initialisation
    and runs the server on 0.0.0.0, port 5000, in debug mode.  When the
    server returns, [main] returns; an [Exception] out of the server is
    logged at the critical level and [main] returns; an exception that
    is not an [Exception], such as the [SystemExit] of the reloader,
    leaves [main] unlogged. *)
Theorem main_serves (key : str) (r : Reader W) :
  makedirs W (Spec.upload_folder W) = Ok tt ->
  Spec.key_present W key -> easyocr_Reader W [lit "en"] = Ok r ->
  main W =
  ([CallMakedirs (Spec.upload_folder W);
    CallReader [lit "en"];
    CallRoute (lit "/answer-question") [lit "POST"];
    Log INFO (lit "Question Answering OCR Application initialized successfully");
    CallRun (lit "0.0.0.0") 5000%N true]
   ++ match app_run W (lit "0.0.0.0") 5000%N true with
      | Done (Raise e) =>
          [Log CRITICAL (lit "Application startup failed: " ++ exc_str e)]
      | _ => []
      end,
   match app_run W (lit "0.0.0.0") 5000%N true with
   | Exit b => Exit b
   | _ => Ok tt
   end).
Proof.
  intros Hm Hk Hr. rewrite (main_with_key Hk), Hm, Hr. reflexivity.
Qed.

(** X19. the server runs only after a complete initialisation.  If [main]
    runs the server at all, then the API key is there and not empty, the
    OCR engine was built, the upload directory was created, and the
    server is run once, on 0.0.0.0, port 5000, in debug mode. *)
Theorem main_serves_only_after_init (host : str) (port : N) (debug : bool) :
  In (CallRun host port debug) (trace (main W)) ->
  (exists key, Spec.key_present W key) /\
  (exists r, easyocr_Reader W [lit "en"] = Ok r) /\
  makedirs W (Spec.upload_folder W) = Ok tt /\
  host = lit "0.0.0.0" /\ port = 5000%N /\ debug = true /\
  Spec.count Spec.is_run_call (trace (main W)) = 1.
Proof.
  destruct key_present_or_missing as [Hm | [key Hk]].
  { intros H. exfalso.
    destruct (missing_key_never_runs Hm) as [Hn _].
    exact (Hn host port debug H). }
  rewrite (main_with_key Hk).
  destruct (makedirs W (Spec.upload_folder W)) as [[]|e] eqn:Hm.
  2:{ intros H. cbn [trace fst] in H. no_such_event H. }
  destruct (easyocr_Reader W [lit "en"]) as [r|e] eqn:Hr.
  2:{ intros H. cbn [trace fst] in H. no_such_event H. }
  intros H.
  split; [exists key; assumption|]. split; [exists r; reflexivity|].
  split; [reflexivity|].
  assert (CallRun (lit "0.0.0.0") 5000%N true = CallRun host port debug)
    as E.
  { cbn [trace fst app In] in H.
    destruct H as [H|[H|[H|[H|[H|H]]]]]; try discriminate; [assumption|].
    destruct (app_run W (lit "0.0.0.0") 5000%N true) as [[[]|e]|b];
      cbn [In] in H; try (destruct H; fail).
    destruct H as [H|[]]. discriminate. }
  inversion E; subst host port debug.
  repeat (split; [reflexivity|]).
  destruct (app_run W (lit "0.0.0.0") 5000%N true) as [[[]|e]|b];
    reflexivity.
Qed.


End StartupExtras.

(** ** The file name, further *)

Section AllowedFileExtras.

Variable W : World.
Local Open Scope N_scope.

Lemma rcut_last (base ext : str) :
  ~ In Spec.dot ext ->
  PyStr.rcut Spec.dot (base ++ Spec.dot :: ext) = Some (base, ext).
Proof.
  intros H. apply PyStrFacts.rcut_Some. split; [reflexivity | assumption].
Qed.

(** X21. only the last extension counts.  Whatever stands before the last
    dot of a file name, other dots included, the verdict is the one of
    the bare extension: a.png.exe is judged as .exe, a.exe.png as .png. *)
Theorem allowed_file_last_extension (base ext : str) :
  ~ In Spec.dot ext ->
  FlaskQuestionAnswerApp.allowed_file W (base ++ Spec.dot :: ext) =
  FlaskQuestionAnswerApp.allowed_file W (Spec.dot :: ext).
Proof.
  intros H. rewrite !allowed_file_rcut.
  pose proof (@rcut_last [] ext H) as H0. cbn [app] in H0.
  rewrite (@rcut_last base ext H), H0. reflexivity.
Qed.

(** X22. a name that ends with a dot is rejected: its extension is empty. *)
Theorem allowed_file_trailing_dot (base : str) :
  FlaskQuestionAnswerApp.allowed_file W (base ++ [Spec.dot]) = ret false.
Proof.
  rewrite allowed_file_rcut.
  assert (PyStr.rcut Spec.dot (base ++ [Spec.dot]) = Some (base, [])) as E
    by (apply rcut_last; intros []).
  rewrite E.
  reflexivity.
Qed.

(** X23. the case of an ASCII extension does not matter.  Two file names
    whose extensions are ASCII and equal up to the case of their letters
    get the same verdict. *)
Theorem allowed_file_ascii_case (base base' ext ext' : str) :
  ~ In Spec.dot ext -> ~ In Spec.dot ext' ->
  Spec.ascii_text ext -> Spec.ascii_text ext' ->
  map PyStr.ascii_lower ext = map PyStr.ascii_lower ext' ->
  FlaskQuestionAnswerApp.allowed_file W (base ++ Spec.dot :: ext) =
  FlaskQuestionAnswerApp.allowed_file W (base' ++ Spec.dot :: ext').
Proof.
  intros Hd Hd' Ha Ha' E. rewrite !allowed_file_rcut.
  rewrite (@rcut_last base ext Hd), (@rcut_last base' ext' Hd').
  unfold PyStr.lower. unfold Spec.ascii_text in Ha, Ha'.
  rewrite Ha, Ha', E. reflexivity.
Qed.

End AllowedFileExtras.

(** ** The text of several triples *)

Section FullText.

(** X13. the text of two batches of triples.  The text extracted from
    two non-empty lists of triples put one after the other is the text
    of the first, a newline, and the text of the second; no text is
    extracted from an empty list. *)
Theorem full_text_of_app (r1 r2 : list ocr_result) :
  r1 <> [] -> r2 <> [] ->
  QuestionOCRAnalyzer.full_text_of (r1 ++ r2) =
  QuestionOCRAnalyzer.full_text_of r1 ++ PyStr.newline
  ++ QuestionOCRAnalyzer.full_text_of r2
  /\ QuestionOCRAnalyzer.full_text_of [] = [].
Proof.
  intros H1 H2. split; [|reflexivity].
  unfold QuestionOCRAnalyzer.full_text_of.
  destruct r2 as [|y r2]; [congruence|]. clear H2.
  induction r1 as [|x r1 IH]; [congruence|].
  destruct r1 as [|x' r1].
  - reflexivity.
  - change (PyStr.join PyStr.newline
              (map ocr_text ((x :: x' :: r1) ++ y :: r2)))
      with (ocr_text x ++ PyStr.newline ++
            PyStr.join PyStr.newline (map ocr_text ((x' :: r1) ++ y :: r2))).
    rewrite IH by discriminate.
    change (PyStr.join PyStr.newline (map ocr_text (x :: x' :: r1)))
      with (ocr_text x ++ PyStr.newline ++
            PyStr.join PyStr.newline (map ocr_text (x' :: r1))).
    rewrite <- !app_assoc. reflexivity.
Qed.

End FullText.

(** ** The status of a validated request *)

Section ValidatedStatus.

Variable W : World.
Variable self : FlaskQuestionAnswerApp.t W.

(** X8. the chat API has no say in the status.  On a request that passes
    validation and decodes, the handler responds 200 when the OCR engine
    returned and the text is a question, and 400 otherwise, whatever the
    chat API returns or raises as an [Exception].  The handler does not
    respond only when the OCR call, or the chat call made for a question,
    ends with an exception that is not an [Exception]. *)
Theorem validated_status (request : Request) (f : FileStorage)
    (arr : ndarray W) :
  Spec.passes_validation W request f -> Spec.decodes W f arr ->
  (exists t body status,
      FlaskQuestionAnswerApp.process_question_image self request
      = (t, Ok (body, status)) /\
      (status = 200%N \/ status = 400%N) /\
      (status = 200%N <->
       exists results,
         readtext W
           (QuestionOCRAnalyzer.reader
              (FlaskQuestionAnswerApp.question_analyzer self)) arr
         = Ok results /\
         Spec.is_question W (Spec.lines (map ocr_text results))))
  \/ (exists t b,
        FlaskQuestionAnswerApp.process_question_image self request
        = (t, Exit b) /\
        (readtext W
           (QuestionOCRAnalyzer.reader
              (FlaskQuestionAnswerApp.question_analyzer self)) arr = Exit b
         \/ exists results,
             readtext W
               (QuestionOCRAnalyzer.reader
                  (FlaskQuestionAnswerApp.question_analyzer self)) arr
             = Ok results /\
             Spec.is_question W (Spec.lines (map ocr_text results)) /\
             ChatCompletion_create W
               (QuestionOCRAnalyzer.completion_request
                  (Spec.lines (map ocr_text results))) = Exit b)).
Proof.
  intros Hv Hd.
  destruct (extract_question_shape
              (FlaskQuestionAnswerApp.question_analyzer self) arr)
    as [(b & Hb & Es) | (s & logs & Es & _ & Hc)].
  { right. rewrite (handler_extract_exits self Hv Hd Es).
    eexists _, b. split; [reflexivity | left; assumption]. }
  destruct s as [|c s].
  - left. rewrite (handler_no_question self Hv Hd Es). eexists _, _, _.
    split; [reflexivity|]. split; [right; reflexivity|].
    split; [discriminate|]. intros (results & Hr & Hq). exfalso.
    pose proof (extract_question_ok
                  (FlaskQuestionAnswerApp.question_analyzer self) _ Hr) as Hx.
    unfold QuestionOCRAnalyzer.full_text_of in Hx. rewrite join_lines in Hx.
    unfold QuestionOCRAnalyzer.question_heuristic in Hx.
    rewrite (proj2 (is_likely_question_iff W _) Hq) in Hx.
    rewrite Es in Hx. inversion Hx as [[Hl He]].
    rewrite <- He in Hq. exact (empty_not_question Hq).
  - assert (c :: s <> []) as Hne by discriminate.
    destruct Hc as [Hc | (results & Hr & Et & Hq & _)]; [discriminate|].
    assert (c :: s = Spec.lines (map ocr_text results)) as El.
    { rewrite Et. apply join_lines. }
    destruct (answer_question_shape
                (FlaskQuestionAnswerApp.question_analyzer self) (c :: s))
      as [(b & Hb & Ea) | (a & logs' & Ea & _)].
    + right. rewrite (handler_answer_exits self Hv Hd Es Hne Ea).
      eexists _, b. split; [reflexivity|]. right. exists results.
      rewrite <- El. repeat split; assumption.
    + left. rewrite (handler_question self Hv Hd Es Hne Ea).
      eexists _, _, _.
      split; [reflexivity|]. split; [left; reflexivity|].
      split; [intros _ | reflexivity].
      exists results. split; [assumption|]. rewrite <- El. assumption.
Qed.

End ValidatedStatus.

(** ** The further properties on concrete requests *)

Lemma example_key_present (ocr : completion (list ocr_result))
    (chat : completion chat_response) :
  Spec.key_present (Examples.world (Some (lit "sk-example")) ocr chat)
    (lit "sk-example").
Proof. split; [reflexivity | discriminate]. Qed.

Lemma upload_png_undecodable :
  Spec.passes_validation Examples.undecodable_world
    (Examples.upload "question.png") (Examples.part "question.png").
Proof.
  split; [|split].
  - exists [], []. split; [reflexivity | intros g []].
  - discriminate.
  - exists (lit "question"), (lit "png"). split; [reflexivity|].
    split; [vm_compute; intuition discriminate | vm_compute; auto].
Qed.

Lemma decode_failure_gives_500_witness :
  FlaskQuestionAnswerApp.process_question_image
    (Examples.app Examples.undecodable_world tt)
    (Examples.upload "question.png")
  = ([CallImageOpen;
      Log ERROR (lit "Question image processing failed: cannot identify image file")],
     Ok (Spec.error_body "Internal server error", 500%N)).
Proof.
  apply (@decode_failure_gives_500 Examples.undecodable_world
           (Examples.app Examples.undecodable_world tt)
           (Examples.upload "question.png") (Examples.part "question.png")
           (mk_exn (lit "UnidentifiedImageError")
              (lit "cannot identify image file"))
           [CallImageOpen]).
  - apply upload_png_undecodable.
  - left. split; reflexivity.
Defined.

Lemma question_is_answered_witness :
  FlaskQuestionAnswerApp.process_question_image
    (Examples.app (Examples.working_world "How many moons does Mars have?") tt)
    (Examples.upload "question.png")
  = ([CallImageOpen; CallNpArray; CallReadtext;
      CallChatCompletion
        (QuestionOCRAnalyzer.completion_request
           (lit "How many moons does Mars have?"))],
     Ok (Spec.answer_body (lit "How many moons does Mars have?")
           (lit "Mars has two moons."), 200%N)).
Proof.
  apply (@question_is_answered
           (Examples.working_world "How many moons does Mars have?")
           (Examples.app
              (Examples.working_world "How many moons does Mars have?") tt)
           (Examples.upload "question.png") (Examples.part "question.png")
           [137; 80; 78; 71]%N
           (Examples.seen "How many moons does Mars have?")
           (mk_chat_choice (lit "Mars has two moons.")) []).
  - apply upload_png_passes.
  - apply upload_png_decodes.
  - reflexivity.
  - apply is_likely_question_iff. vm_compute. reflexivity.
  - reflexivity.
Defined.

Lemma ok_means_question_answered_witness :
  exists f q a,
    Spec.passes_validation
      (Examples.working_world "How many moons does Mars have?")
      (Examples.upload "question.png") f /\
    Spec.is_question
      (Examples.working_world "How many moons does Mars have?") q /\
    q <> [] /\
    Spec.answer_body (lit "How many moons does Mars have?")
      (lit "Mars has two moons.") = Spec.answer_body q a /\
    Spec.count Spec.is_chat_call
      (trace (FlaskQuestionAnswerApp.process_question_image
                (Examples.app
                   (Examples.working_world "How many moons does Mars have?")
                   tt)
                (Examples.upload "question.png"))) = 1.
Proof.
  apply (@ok_means_question_answered
           (Examples.working_world "How many moons does Mars have?")
           (Examples.app
              (Examples.working_world "How many moons does Mars have?") tt)
           (Examples.upload "question.png")).
  vm_compute. reflexivity.
Defined.

Lemma server_error_causes_witness :
  Spec.error_body "Internal server error"
  = Spec.error_body "Internal server error" /\
  ((exists e, files Examples.oversized_upload = Raise e)
   \/ exists f e t,
       Spec.passes_validation (Examples.working_world "What is this?")
         Examples.oversized_upload f /\
       Spec.decode_fails (Examples.working_world "What is this?") f e t).
Proof.
  apply (@server_error_causes (Examples.working_world "What is this?")
           (Examples.app (Examples.working_world "What is this?") tt)
           Examples.oversized_upload).
  vm_compute. reflexivity.
Defined.

Lemma first_image_part_counts_witness :
  FlaskQuestionAnswerApp.process_question_image
    (Examples.app (Examples.working_world "Why is the sky blue") tt)
    (mk_Request (Ok [(lit "note", Examples.part "note.txt");
                     (lit "image", Examples.part "sky.png");
                     (lit "image", Examples.part "other.exe")]))
  = FlaskQuestionAnswerApp.process_question_image
      (Examples.app (Examples.working_world "Why is the sky blue") tt)
      (mk_Request (Ok [(lit "image", Examples.part "sky.png")])).
Proof.
  apply (@first_image_part_counts
           (Examples.working_world "Why is the sky blue")).
  exists [(lit "note", Examples.part "note.txt")],
    [(lit "image", Examples.part "other.exe")].
  split; [reflexivity|].
  intros g [H|[]]. inversion H.
Defined.

Lemma answer_is_first_choice_witness :
  QuestionOCRAnalyzer.answer_question
    (QuestionOCRAnalyzer.mk (Examples.working_world "") tt (lit "sk-example"))
    (lit "How many moons does Mars have?")
  = ([CallChatCompletion
        (mk_chat_request (lit "gpt-4o-mini")
           [(lit "system", QuestionOCRAnalyzer.system_prompt);
            (lit "user", lit "How many moons does Mars have?")]
           300%N (7 # 10)%Q)],
     Ok (lit "Mars has two moons.")).
Proof.
  apply (@answer_is_first_choice (Examples.working_world "")
           (QuestionOCRAnalyzer.mk (Examples.working_world "") tt
              (lit "sk-example"))
           (lit "How many moons does Mars have?")
           (mk_chat_choice (lit "Mars has two moons.")) []).
  reflexivity.
Defined.

Lemma answer_without_choices_witness :
  QuestionOCRAnalyzer.answer_question
    (QuestionOCRAnalyzer.mk
       (Examples.world None (Ok []) (Ok (mk_chat_response []))) tt
       (lit "sk-example"))
    (lit "Who is there?")
  = ([CallChatCompletion
        (QuestionOCRAnalyzer.completion_request (lit "Who is there?"));
      Log ERROR (lit "Question answering failed: list index out of range")],
     Ok (lit "Sorry, I couldn't generate an answer. Error: list index out of range")).
Proof.
  apply (@answer_without_choices
           (Examples.world None (Ok []) (Ok (mk_chat_response [])))).
  reflexivity.
Defined.

Lemma extracted_question_is_ocr_text_witness :
  exists results,
    readtext (Examples.working_world "Where is Paris") tt [1%N] = Ok results /\
    lit "Where is Paris" = Spec.lines (map ocr_text results) /\
    Spec.is_question (Examples.working_world "Where is Paris")
      (lit "Where is Paris") /\
    trace (QuestionOCRAnalyzer.extract_question
             (QuestionOCRAnalyzer.mk (Examples.working_world "Where is Paris")
                tt (lit "sk-example")) [1%N])
    = [CallReadtext].
Proof.
  apply (@extracted_question_is_ocr_text
           (Examples.working_world "Where is Paris")
           (QuestionOCRAnalyzer.mk (Examples.working_world "Where is Paris")
              tt (lit "sk-example"))
           [1%N] (lit "Where is Paris")).
  - vm_compute. reflexivity.
  - discriminate.
Defined.

Lemma analyzer_init_succeeds_witness :
  QuestionOCRAnalyzer.init (Examples.working_world "") [lit "en"; lit "fr"]
  = ([CallReader [lit "en"; lit "fr"]],
     Ok (QuestionOCRAnalyzer.mk (Examples.working_world "") tt
           (lit "sk-example"))).
Proof.
  apply (@analyzer_init_succeeds (Examples.working_world "")
           [lit "en"; lit "fr"] (lit "sk-example") tt).
  - apply example_key_present.
  - reflexivity.
Defined.

Lemma analyzer_init_engine_failure_witness :
  QuestionOCRAnalyzer.init Examples.engineless_world [lit "en"]
  = ([CallReader [lit "en"];
      Log ERROR (lit "Initialization failed: CUDA out of memory")],
     Raise Examples.engine_error).
Proof.
  apply (@analyzer_init_engine_failure Examples.engineless_world
           [lit "en"] Examples.engine_error).
  reflexivity.
Defined.

Lemma app_init_succeeds_witness :
  FlaskQuestionAnswerApp.init (Examples.working_world "")
  = ([CallMakedirs (lit "./uploads"); CallReader [lit "en"];
      CallRoute (lit "/answer-question") [lit "POST"]],
     Ok (FlaskQuestionAnswerApp.mk 16777216%N (lit "./uploads")
           (QuestionOCRAnalyzer.mk (Examples.working_world "") tt
              (lit "sk-example")))).
Proof.
  apply (@app_init_succeeds (Examples.working_world "")
           (lit "sk-example") tt).
  - reflexivity.
  - apply example_key_present.
  - reflexivity.
Defined.

Lemma app_init_makedirs_failure_witness :
  FlaskQuestionAnswerApp.init Examples.readonly_world
  = ([CallMakedirs (lit "./uploads")],
     Raise (mk_exn (lit "PermissionError") (lit "Permission denied"))).
Proof.
  apply (@app_init_makedirs_failure Examples.readonly_world
           (mk_exn (lit "PermissionError") (lit "Permission denied"))).
  reflexivity.
Defined.

Lemma main_serves_witness :
  main (Examples.working_world "")
  = ([CallMakedirs (lit "./uploads");
      CallReader [lit "en"];
      CallRoute (lit "/answer-question") [lit "POST"];
      Log INFO (lit "Question Answering OCR Application initialized successfully");
      CallRun (lit "0.0.0.0") 5000%N true],
     Ok tt).
Proof.
  apply (@main_serves (Examples.working_world "") (lit "sk-example") tt).
  - reflexivity.
  - apply example_key_present.
  - reflexivity.
Defined.

Lemma main_serves_only_after_init_witness :
  (exists key, Spec.key_present (Examples.working_world "") key) /\
  (exists r, easyocr_Reader (Examples.working_world "") [lit "en"] = Ok r) /\
  makedirs (Examples.working_world "")
    (Spec.upload_folder (Examples.working_world "")) = Ok tt /\
  lit "0.0.0.0" = lit "0.0.0.0" /\ 5000%N = 5000%N /\ true = true /\
  Spec.count Spec.is_run_call (trace (main (Examples.working_world ""))) = 1.
Proof.
  apply (@main_serves_only_after_init (Examples.working_world "")
           (lit "0.0.0.0") 5000%N true).
  vm_compute. right; right; right; right; left; reflexivity.
Defined.

Lemma allowed_file_last_extension_witness :
  FlaskQuestionAnswerApp.allowed_file (Examples.working_world "")
    (lit "scan.png.exe")
  = FlaskQuestionAnswerApp.allowed_file (Examples.working_world "")
      (lit ".exe").
Proof.
  apply (@allowed_file_last_extension (Examples.working_world "")
           (lit "scan.png") (lit "exe")).
  vm_compute. intuition discriminate.
Defined.

Lemma allowed_file_ascii_case_witness :
  FlaskQuestionAnswerApp.allowed_file (Examples.working_world "")
    (lit "Holiday.JpEg")
  = FlaskQuestionAnswerApp.allowed_file (Examples.working_world "")
      (lit "x.jpeg").
Proof.
  apply (@allowed_file_ascii_case (Examples.working_world "")
           (lit "Holiday") (lit "x") (lit "JpEg") (lit "jpeg")).
  - vm_compute. intuition discriminate.
  - vm_compute. intuition discriminate.
  - reflexivity.
  - reflexivity.
  - reflexivity.
Defined.

Lemma full_text_of_app_witness :
  QuestionOCRAnalyzer.full_text_of
    (Examples.seen "How many moons" ++ Examples.seen "does Mars have?")
  = lit "How many moons" ++ PyStr.newline ++ lit "does Mars have?"
  /\ QuestionOCRAnalyzer.full_text_of [] = [].
Proof.
  apply (@full_text_of_app (Examples.seen "How many moons")
           (Examples.seen "does Mars have?")); discriminate.
Defined.

Lemma validated_status_witness :
  (exists t body status,
      FlaskQuestionAnswerApp.process_question_image
        (Examples.app (Examples.failing_chat_world "Is this a cat?") tt)
        (Examples.upload "question.png")
      = (t, Ok (body, status)) /\
      (status = 200%N \/ status = 400%N) /\
      (status = 200%N <->
       exists results,
         readtext (Examples.failing_chat_world "Is this a cat?") tt
           [137; 80; 78; 71]%N = Ok results /\
         Spec.is_question (Examples.failing_chat_world "Is this a cat?")
           (Spec.lines (map ocr_text results))))
  \/ (exists t b,
        FlaskQuestionAnswerApp.process_question_image
          (Examples.app (Examples.failing_chat_world "Is this a cat?") tt)
          (Examples.upload "question.png")
        = (t, Exit b) /\
        (readtext (Examples.failing_chat_world "Is this a cat?") tt
           [137; 80; 78; 71]%N = Exit b
         \/ exists results,
             readtext (Examples.failing_chat_world "Is this a cat?") tt
               [137; 80; 78; 71]%N = Ok results /\
             Spec.is_question (Examples.failing_chat_world "Is this a cat?")
               (Spec.lines (map ocr_text results)) /\
             ChatCompletion_create
               (Examples.failing_chat_world "Is this a cat?")
               (QuestionOCRAnalyzer.completion_request
                  (Spec.lines (map ocr_text results))) = Exit b)).
Proof.
  apply (@validated_status (Examples.failing_chat_world "Is this a cat?")
           (Examples.app (Examples.failing_chat_world "Is this a cat?") tt)
           (Examples.upload "question.png") (Examples.part "question.png")
           [137; 80; 78; 71]%N).
  - apply upload_png_passes.
  - apply upload_png_decodes.
Defined.
